(** * Auto-grading algebra: the relay endpoint and the upload client

    A shallow embedding of the two source files of the repository:
    the route handler ([POST] and [decodeBase64Image]) and the page
    component ([submit], the paste/drop/input handlers and the split of the
    completion on the sentinel marker). *)

From Stdlib Require Import List String Ascii ZArith NArith Bool Lia.
From ExtLib Require Import Structures.Monad Structures.MonadState
  Data.Monads.StateMonad.
Import ListNotations.

Set Implicit Arguments.
Local Open Scope Z_scope.

(** ** JavaScript strings

    A JavaScript string is a sequence of UTF-16 code units; [length],
    the regular expression engine (without the [u] flag) and [split] all
    work on code units. *)

Definition code_unit := N.
Definition jsstring := list code_unit.

Module Js.

(** [s.length] *)
Definition length (s : jsstring) : Z := Z.of_nat (List.length s).

(** An ASCII literal of the source, as code units. *)
Definition lit (s : string) : jsstring :=
  map N_of_ascii (list_ascii_of_string s).

(** [a === b] on strings. *)
Fixpoint eqb (a b : jsstring) : bool :=
  match a, b with
  | [], [] => true
  | x :: a', y :: b' => N.eqb x y && eqb a' b'
  | _, _ => false
  end.

(** A string that may be [undefined], after the guard [if (!v) return]:
    [undefined] and the empty string are falsy and do not get past it. *)
Definition narrow (v : option jsstring) : option jsstring :=
  match v with
  | None => None
  | Some [] => None
  | Some (c :: s) => Some (c :: s)
  end.

(** [s.startsWith(p)], returning what follows the prefix. *)
Fixpoint strip_prefix (p s : jsstring) : option jsstring :=
  match p, s with
  | [], _ => Some s
  | _ :: _, [] => None
  | x :: p', y :: s' => if N.eqb x y then strip_prefix p' s' else None
  end.

(** [s.split(sep)] for a separator that is one code unit long: the pieces
    between the occurrences of [sep], in order; never an empty array. *)
Fixpoint split (sep : code_unit) (s : jsstring) : list jsstring :=
  match s with
  | [] => [[]]
  | c :: s' =>
      if N.eqb c sep then [] :: split sep s'
      else match split sep s' with
           | [] => [[c]]
           | seg :: segs => (c :: seg) :: segs
           end
  end.

(** JavaScript's coercion of a string that may be [undefined] to a boolean. *)
Definition truthy (v : option jsstring) : bool :=
  match narrow v with
  | Some _ => true
  | None => false
  end.

(** [parts.join(sep)]: an [undefined] element counts as the empty string. *)
Fixpoint join (sep : jsstring) (parts : list (option jsstring)) : jsstring :=
  match parts with
  | [] => []
  | part :: rest =>
      let text := match part with Some s => s | None => [] end in
      match rest with
      | [] => text
      | _ :: _ => text ++ sep ++ join sep rest
      end
  end.

(** The code units [trim] strips: WhiteSpace and LineTerminator. *)
Definition is_white_space (c : code_unit) : bool :=
  ((9 <=? c) && (c <=? 13) || N.eqb c 32 || N.eqb c 160 || N.eqb c 5760
   || (8192 <=? c) && (c <=? 8202) || N.eqb c 8232 || N.eqb c 8233
   || N.eqb c 8239 || N.eqb c 8287 || N.eqb c 12288 || N.eqb c 65279)%N.

(** [s.trimStart()] *)
Fixpoint trimStart (s : jsstring) : jsstring :=
  match s with
  | [] => []
  | c :: s' => if is_white_space c then trimStart s' else s
  end.

(** [s.trimEnd()] *)
Definition trimEnd (s : jsstring) : jsstring := rev (trimStart (rev s)).

(** [s.trim()] *)
Definition trim (s : jsstring) : jsstring := trimEnd (trimStart s).

End Js.

(** ** Regular expressions, as far as the route handler uses them

    The only pattern of the repository is
    [/^data:([A-Za-z-+\/]+);base64,(.+)$/]: anchored at both ends of the
    input (no [m] flag), a sequence of literal text and of capturing groups
    that hold one greedy [+] over a set of code units. *)

Module Regex.

Inductive node : Type :=
| Literal (text : jsstring)
| GroupPlus (set : code_unit -> bool).

Definition pattern := list node.

(** Greedy [set+] followed by the continuation [k]: take one more code unit
    as long as that leads to a match, otherwise stop here (backtracking). *)
Fixpoint plus (set : code_unit -> bool)
    (k : jsstring -> option (list jsstring)) (s : jsstring)
    : option (jsstring * list jsstring) :=
  match s with
  | [] => None
  | c :: s' =>
      if set c then
        match plus set k s' with
        | Some (g, caps) => Some (c :: g, caps)
        | None =>
            match k s' with
            | Some caps => Some ([c], caps)
            | None => None
            end
        end
      else None
  end.

(** [^pattern$] against the whole input; the result is the list of the
    captured groups, in order. *)
Fixpoint exec (re : pattern) (s : jsstring) : option (list jsstring) :=
  match re with
  | [] => match s with [] => Some [] | _ :: _ => None end
  | Literal text :: re' =>
      match Js.strip_prefix text s with
      | Some rest => exec re' rest
      | None => None
      end
  | GroupPlus set :: re' =>
      match plus set (exec re') s with
      | Some (g, caps) => Some (g :: caps)
      | None => None
      end
  end.

(** The language of a pattern, with its captures. *)
Inductive Matches : pattern -> jsstring -> list jsstring -> Prop :=
| M_end : Matches [] [] []
| M_literal text re s caps :
    Matches re s caps -> Matches (Literal text :: re) (text ++ s) caps
| M_group set re g s caps :
    g <> [] -> forallb set g = true -> Matches re s caps ->
    Matches (GroupPlus set :: re) (g ++ s) (g :: caps).

(** [.] without the [s] flag: any code unit but a line terminator
    (LF, CR, LS, PS). *)
Definition dot (c : code_unit) : bool :=
  negb (N.eqb c 10 || N.eqb c 13 || N.eqb c 8232 || N.eqb c 8233)%N.

(** The class [[A-Za-z-+\/]]. *)
Definition mime_class (c : code_unit) : bool :=
  ((65 <=? c) && (c <=? 90) || (97 <=? c) && (c <=? 122)
   || N.eqb c 45 || N.eqb c 43 || N.eqb c 47)%N.

End Regex.

(** ** The helper imported from [@/app/utils] *)

Module Utils.

Definition supportedImageTypes : list jsstring :=
  [ Js.lit "image/jpeg"; Js.lit "image/png"; Js.lit "image/gif";
    Js.lit "image/webp" ].

(** Modelled from the spec: [isSupportedImageType] lives in [@/app/utils],
    which is not among the source files; the spec gives its allow-list as
    {image/jpeg, image/png, image/gif, image/webp}. *)
Definition isSupportedImageType (type : jsstring) : bool :=
  existsb (Js.eqb type) supportedImageTypes.

End Utils.

(** ** The route handler *)

Module Route.

Definition prompt_task : jsstring := Js.lit "
  You are given an image of a handwritten answer of a middle school algebra question from a middle school student. 
  In the answer there is some irrelevant words that could be in any language or some deleted expressions. 

  Please do the following: 
  1. Recognize the original problem and the type of the problem. 
  2. Recognize the expressions in each step and its correctness. 
  3. Justify if the final answer is correct. 
  4. Generate a rubrics with 5 total points for this question. 
  5. Justify how many points will you award each item in the rubrics and calculate the final score.
".

(** The sentinel marker, U+25B2. *)
Definition sentinel : jsstring := [9650%N].

(** *** What the handler exchanges with the outside *)

(** The JSON body of the request, [{ prompt }]. *)
Record Request : Type := { prompt : jsstring }.

Inductive Body : Type :=
| Text (text : string)
| Stream (chunks : list jsstring).

Record Response : Type := { status : Z; body : Body }.

(** [new Response(text, { status })] *)
Definition new_Response (text : string) (status : Z) : Response :=
  {| status := status; body := Text text |}.

(** [new StreamingTextResponse(stream)], of the [ai] package: a response of
    status 200 whose body is the stream it is given. *)
Definition StreamingTextResponse (stream : list jsstring) : Response :=
  {| status := 200; body := Stream stream |}.

Inductive ContentPart : Type :=
| TextPart (text : jsstring)
| ImagePart (image mimeType : jsstring).

Inductive Role : Type := user | assistant.

Record Message : Type := { role : Role; content : list ContentPart }.

Inductive LanguageModel : Type := google (modelId : string).

Record StreamTextArgs : Type :=
  { messages : list Message; model : LanguageModel }.

(** The object [streamText] resolves to.  [toAIStream] is its method: the
    stream which the [ai] package derives from the answer of the hosted model
    (the package frames the text as it sees fit; the handler does not look
    inside), as the sequence of chunks that stream carries. *)
Record StreamTextResult : Type := { toAIStream : list jsstring }.

(** An asynchronous handler: it either returns, or awaits one call of the
    hosted model and goes on with the result once that call has resolved. *)
Inductive Async (A : Type) : Type :=
| Return (a : A)
| Await_streamText (args : StreamTextArgs) (k : StreamTextResult -> Async A).

Arguments Return {A} a.
Arguments Await_streamText {A} args k.

Fixpoint bind {A B : Type} (m : Async A) (f : A -> Async B) : Async B :=
  match m with
  | Return a => f a
  | Await_streamText args k => Await_streamText args (fun r => bind (k r) f)
  end.

Definition streamText (args : StreamTextArgs) : Async StreamTextResult :=
  Await_streamText args (fun r => Return r).

Notation "'let*' x ':=' 'await' m 'in' k" := (bind m (fun x => k))
  (at level 10, x name, m at level 100, k at level 200).

(** What becomes of the promise of an asynchronous handler: it resolves
    with a value, or it rejects. *)
Inductive Outcome (A : Type) : Type :=
| Resolved (a : A)
| Rejected.

Arguments Resolved {A} a.
Arguments Rejected {A}.

(** Running a handler against a hosted model: what becomes of its promise
    and the calls made, in order.  A call of the hosted model resolves with
    a result or rejects ([None]: the service fails, or refuses the image).
    A rejected call throws at its [await]; the handler has no [try], so its
    own promise rejects there and nothing after the [await] runs. *)
Fixpoint run {A : Type} (hosted : StreamTextArgs -> option StreamTextResult)
    (m : Async A) : Outcome A * list StreamTextArgs :=
  match m with
  | Return a => (Resolved a, [])
  | Await_streamText args k =>
      match hosted args with
      | Some result =>
          let (a, calls) := run hosted (k result) in (a, args :: calls)
      | None => (Rejected, [args])
      end
  end.

(** *** The handler *)

(** [/^data:([A-Za-z-+\/]+);base64,(.+)$/] *)
Definition data_uri : Regex.pattern :=
  [ Regex.Literal (Js.lit "data:");
    Regex.GroupPlus Regex.mime_class;
    Regex.Literal (Js.lit ";base64,");
    Regex.GroupPlus Regex.dot ].

Record Decoded : Type :=
  { mimeType : option jsstring; image : option jsstring }.

(** [matches?.[1]] and [matches?.[2]]: index 0 of the match array is the
    whole match, the groups follow. *)
Definition decodeBase64Image (dataString : jsstring) : Decoded :=
  let matches := Regex.exec data_uri dataString in
  {| mimeType :=
       match matches with Some caps => nth_error caps 0 | None => None end;
     image :=
       match matches with Some caps => nth_error caps 1 | None => None end |}.

Section WithUtils.

(** Imported from [@/app/utils], which is not among the source files: the
    handler is read for any such helper. *)
Variable isSupportedImageType : jsstring -> bool.

Definition POST (req : Request) : Async Response :=
  let prompt := req.(prompt) in
  if Js.length prompt >? 6464471 then
    Return (new_Response "Image too large, maximum file size is 4.5MB." 400)
  else
    let d := decodeBase64Image prompt in
    match Js.narrow d.(mimeType), Js.narrow d.(image) with
    | Some mimeType, Some image =>
        if negb (isSupportedImageType mimeType) then
          Return (new_Response
            "Unsupported format. Only JPEG, PNG, GIF, and WEBP files are supported."
            400)
        else
          let* result := await streamText
            {| messages :=
                 [ {| role := user;
                      content := [ TextPart prompt_task;
                                   ImagePart image mimeType ] |};
                   {| role := assistant;
                      content := [ TextPart sentinel ] |} ];
               model := google "models/gemini-1.5-pro-latest" |} in
          Return (StreamingTextResponse result.(toAIStream))
    | _, _ => Return (new_Response "Invalid image data" 400)
    end.

End WithUtils.

End Route.

(** ** The page component *)

Module Page.

Import MonadNotation.
Local Open Scope monad_scope.

(** What [submit] reads of a [File] or [Blob]. *)
Record File : Type := { type : jsstring; size : Z }.

Record DataTransfer : Type := { files : list File }.
Record ClipboardEvent : Type := { clipboardData : option DataTransfer }.
Record DragEvent : Type := { dataTransfer : option DataTransfer }.
(** [e.target.files] of the file input may be [null]. *)
Record ChangeEvent : Type := { target_files : option (list File) }.

Inductive Toast : Type :=
| toast_error_shown (message : string)
| toast_success_shown (message : string).

(** The [useState] cells of [Home], the toasts shown so far and the
    prompts handed to [complete] so far (each one is a request to the
    relay), oldest first. *)
Record State : Type :=
  { isDraggingOver : bool;
    blobURL : option jsstring;
    finished : bool;
    toasts : list Toast;
    completions : list jsstring }.

Definition setIsDraggingOver (v : bool) : state State unit :=
  modify (fun st =>
    {| isDraggingOver := v; blobURL := st.(blobURL);
       finished := st.(finished); toasts := st.(toasts);
       completions := st.(completions) |}) ;;
  ret tt.

Definition setBlobURL (v : option jsstring) : state State unit :=
  modify (fun st =>
    {| isDraggingOver := st.(isDraggingOver); blobURL := v;
       finished := st.(finished); toasts := st.(toasts);
       completions := st.(completions) |}) ;;
  ret tt.

Definition setFinished (v : bool) : state State unit :=
  modify (fun st =>
    {| isDraggingOver := st.(isDraggingOver); blobURL := st.(blobURL);
       finished := v; toasts := st.(toasts);
       completions := st.(completions) |}) ;;
  ret tt.

Definition toast_error (message : string) : state State unit :=
  modify (fun st =>
    {| isDraggingOver := st.(isDraggingOver); blobURL := st.(blobURL);
       finished := st.(finished);
       toasts := st.(toasts) ++ [toast_error_shown message];
       completions := st.(completions) |}) ;;
  ret tt.

(** [complete(prompt)] of [useCompletion]: the request to the relay. *)
Definition complete (prompt : jsstring) : state State unit :=
  modify (fun st =>
    {| isDraggingOver := st.(isDraggingOver); blobURL := st.(blobURL);
       finished := st.(finished); toasts := st.(toasts);
       completions := st.(completions) ++ [prompt] |}) ;;
  ret tt.

(** [4.5 * 1024 * 1024] *)
Definition max_file_size : Z := 4718592.

(** [xs?.[0]] *)
Definition first_file (xs : option (list File)) : option File :=
  match xs with
  | None => None
  | Some l => nth_error l 0
  end.

(** [toast.success(message)] *)
Definition toast_success (message : string) : state State unit :=
  modify (fun st =>
    {| isDraggingOver := st.(isDraggingOver); blobURL := st.(blobURL);
       finished := st.(finished);
       toasts := st.(toasts) ++ [toast_success_shown message];
       completions := st.(completions) |}) ;;
  ret tt.

(** The callbacks given to [useCompletion]; [message] is [e.message]. *)
Definition onError (message : string) : state State unit :=
  toast_error message ;;
  setBlobURL None.

Definition onFinish : state State unit := setFinished true.

Definition handleDragLeave : state State unit := setIsDraggingOver false.

(** Besides the flag, [handleDragOver] only acts on the event. *)
Definition handleDragOver : state State unit := setIsDraggingOver true.

(** An item of the system clipboard: its types, and [getType], which gives
    the blob of a type or rejects ([None]). *)
Record ClipboardItem : Type :=
  { types : list jsstring; getType : jsstring -> option File }.

(** What [navigator.clipboard] offers at a long press: no [read] method, a
    [read()] that rejects, or the items read. *)
Inductive ClipboardRead : Type :=
| read_missing
| read_rejected
| read_items (items : list ClipboardItem).

Section Home.

(** Imported from [@/app/utils], as in the route handler. *)
Variable isSupportedImageType : jsstring -> bool.

(** The browser's [FileReader.readAsDataURL]: the data URL of the file, or
    [None] when the read fails, in which case the promise of [toBase64]
    does not resolve and nothing after the [await] runs. *)
Variable toBase64 : File -> option jsstring.

Variable createObjectURL : File -> jsstring.

Definition submit (file : option File) : state State unit :=
  match file with
  | None => ret tt
  | Some file =>
      if negb (isSupportedImageType file.(type)) then
        toast_error
          "Unsupported format. Only JPEG, PNG, GIF, and WEBP files are supported."
      else if file.(size) >? max_file_size then
        toast_error "Image too large, maximum file size is 4.5MB."
      else
        match toBase64 file with
        | None => ret tt
        | Some base64 =>
            if Js.length base64 >? 6464471 then
              toast_error "Image too large, maximum file size is 4.5MB."
            else
              setBlobURL (Some (createObjectURL file)) ;;
              setFinished false ;;
              complete base64
        end
  end.

Definition handleDrop (e : DragEvent) : state State unit :=
  setIsDraggingOver false ;;
  let file := first_file (option_map files e.(dataTransfer)) in
  submit file.

Definition handlePaste (e : ClipboardEvent) : state State unit :=
  let file := first_file (option_map files e.(clipboardData)) in
  submit file.

Definition handleInputChange (e : ChangeEvent) : state State unit :=
  let file := first_file e.(target_files) in
  submit file.

(** The callback given to [useLongPress].  Everything from the [read()] to
    the [getType] runs inside [try]: a rejected promise and the [TypeError]
    of [item.types] on an empty clipboard both end in the [catch].  [submit]
    is not awaited, so nothing of it is caught. *)
Definition onLongPress (clipboard : ClipboardRead) : state State unit :=
  match clipboard with
  | read_missing =>
      toast_error "Your browser does not support reading from the clipboard."
  | read_rejected => toast_error "Permission to read clipboard was denied."
  | read_items items =>
      match nth_error items 0 with
      | None => toast_error "Permission to read clipboard was denied."
      | Some item =>
          match Js.narrow (find isSupportedImageType item.(types)) with
          | None =>
              toast_error
                "Unsupported format. Only JPEG, PNG, GIF, and WEBP files are supported."
          | Some supportedType =>
              match item.(getType) supportedType with
              | None => toast_error "Permission to read clipboard was denied."
              | Some blob => submit (Some blob)
              end
          end
      end
  end.

End Home.

(** The sentinel marker, U+25B2, one code unit. *)
Definition sentinel : code_unit := 9650%N.

(** [const [description, text] = completion.split(sentinel)]: the first two
    elements of the array, [undefined] where the array is too short. *)
Definition description_text (completion : jsstring)
    : option jsstring * option jsstring :=
  let segments := Js.split sentinel completion in
  (nth_error segments 0, nth_error segments 1).

(** The page and the texts handed to [navigator.clipboard.writeText] so
    far, oldest first (the Clipboard API is taken to be there). *)
Record Browser : Type := { page : State; written : list jsstring }.

Definition writeText (text : jsstring) : state Browser unit :=
  modify (fun b =>
    {| page := b.(page); written := b.(written) ++ [text] |}) ;;
  ret tt.

Definition on_page (m : state State unit) : state Browser unit :=
  modify (fun b =>
    {| page := execState m b.(page); written := b.(written) |}) ;;
  ret tt.

(** [copyBoth] of [Home], for the completion of the current render. *)
Definition copyBoth (completion : jsstring) : state Browser unit :=
  let (description, text) := description_text completion in
  writeText (Js.join [10%N] [description; text]) ;;
  on_page (toast_success "Copied to clipboard").

(** *** The [Section] component *)

(** [copy] of a section: [content || ""] goes to the clipboard. *)
Definition copy (content : option jsstring) : state Browser unit :=
  writeText (match Js.narrow content with Some c => c | None => [] end) ;;
  on_page (toast_success "Copied to clipboard").

(** What a section renders: the copy button, the heading, the pulsing
    placeholder, the paragraph with the trimmed content, the notice
    "No text was found in that image.". *)
Record SectionView : Type :=
  { copy_button : bool;
    heading : string;
    placeholder : bool;
    paragraph : option jsstring;
    no_text_notice : bool }.

Definition Section_ (children : string) (content : option jsstring)
    (finished : bool) : SectionView :=
  let loading := negb (Js.truthy content) && negb finished in
  {| copy_button := Js.truthy content;
     heading := children;
     placeholder := loading;
     paragraph :=
       match Js.narrow content with
       | Some c => Some (Js.trim c)
       | None => None
       end;
     no_text_notice := finished && negb (Js.truthy content) |}.

(** The results column of [Home]: absent unless [isLoading || completion];
    otherwise the two sections and whether the button "Copy Both" shows
    ([finished && text]). *)
Record Results : Type :=
  { description_section : SectionView;
    text_section : SectionView;
    copy_both_button : bool }.

Definition results (isLoading : bool) (completion : jsstring)
    (finished : bool) : option Results :=
  let (description, text) := description_text completion in
  if isLoading || Js.truthy (Some completion) then
    Some {| description_section := Section_ "Description" description finished;
            text_section := Section_ "Text" text finished;
            copy_both_button := finished && Js.truthy text |}
  else None.

End Page.

(** * Specification vocabulary *)

(** [s] is [data:<m>;base64,<p>] as the pattern of the handler reads it:
    [m] a non-empty run of the class, [p] non-empty and on one line. *)
Definition DataURI (s m p : jsstring) : Prop :=
  s = Js.lit "data:" ++ m ++ Js.lit ";base64," ++ p
  /\ m <> [] /\ forallb Regex.mime_class m = true
  /\ p <> [] /\ forallb Regex.dot p = true.

Definition too_large : Route.Response :=
  {| Route.status := 400;
     Route.body := Route.Text "Image too large, maximum file size is 4.5MB." |}.

Definition invalid_image_data : Route.Response :=
  {| Route.status := 400; Route.body := Route.Text "Invalid image data" |}.

Definition unsupported_format : Route.Response :=
  {| Route.status := 400;
     Route.body := Route.Text
       "Unsupported format. Only JPEG, PNG, GIF, and WEBP files are supported." |}.

(** The conversation the handler sends for an image [image] of type
    [mimeType]. *)
Definition conversation (image mimeType : jsstring) : list Route.Message :=
  [ {| Route.role := Route.user;
       Route.content := [ Route.TextPart Route.prompt_task;
                          Route.ImagePart image mimeType ] |};
    {| Route.role := Route.assistant;
       Route.content := [ Route.TextPart [9650%N] ] |} ].

(** The call of the hosted model for an image [image] of type [mimeType]. *)
Definition call_for (image mimeType : jsstring) : Route.StreamTextArgs :=
  {| Route.messages := conversation image mimeType;
     Route.model := Route.google "models/gemini-1.5-pro-latest" |}.

(** The validation sequence as the specification lists it: three checks,
    each with the response of its failure; the first check that fails
    decides, the later ones are not looked at. *)
Section ValidationSequence.

Variable isSupportedImageType : jsstring -> bool.

Definition exceeds_size_limit (prompt : jsstring) : bool :=
  Js.length prompt >? 6464471.

(** No MIME type or no payload captured. *)
Definition not_captured (prompt : jsstring) : bool :=
  match Route.decodeBase64Image prompt with
  | {| Route.mimeType := Some _; Route.image := Some _ |} => false
  | _ => true
  end.

Definition outside_allow_list (prompt : jsstring) : bool :=
  match (Route.decodeBase64Image prompt).(Route.mimeType) with
  | Some mimeType => negb (isSupportedImageType mimeType)
  | None => true
  end.

Definition validation_sequence : list ((jsstring -> bool) * Route.Response) :=
  [ (exceeds_size_limit, too_large);
    (not_captured, invalid_image_data);
    (outside_allow_list, unsupported_format) ].

Definition first_failure (prompt : jsstring) : option Route.Response :=
  option_map snd (find (fun check => fst check prompt) validation_sequence).

End ValidationSequence.

(** The string [data:<m>;base64,<p>]. *)
Definition data_uri_string (m p : jsstring) : jsstring :=
  Js.lit "data:" ++ m ++ Js.lit ";base64," ++ p.

(** [m] holds the text [;base64,] somewhere.  The MIME type of a data-URI is
    what stands between [data:] and the first [;base64,], so it does not. *)
Definition holds_marker (m : jsstring) : Prop :=
  exists a b, m = a ++ Js.lit ";base64," ++ b.

(** [seg] is a part of [text]. *)
Definition part_of (seg text : jsstring) : Prop :=
  exists before after, text = before ++ seg ++ after.

(** The segments after the second one are kept in the text section. *)
Definition extras_in_text (completion : jsstring) : Prop :=
  forall seg,
    In seg (skipn 2 (Js.split Page.sentinel completion)) ->
    exists text,
      snd (Page.description_text completion) = Some text /\ part_of seg text.

(** How often the sentinel occurs. *)
Definition sentinels (completion : jsstring) : nat :=
  count_occ N.eq_dec completion Page.sentinel.

(** The state after an accepted upload of [file] with data URL [base64]:
    the preview is the object URL of the file, the finished flag is down and
    [base64] is the latest prompt handed to [complete]. *)
Definition accepted_upload (createObjectURL : Page.File -> jsstring)
    (file : Page.File) (base64 : jsstring) (st : Page.State) : Page.State :=
  {| Page.isDraggingOver := st.(Page.isDraggingOver);
     Page.blobURL := Some (createObjectURL file);
     Page.finished := false;
     Page.toasts := st.(Page.toasts);
     Page.completions := st.(Page.completions) ++ [base64] |}.

(** The state with one more error toast. *)
Definition with_error (message : string) (st : Page.State) : Page.State :=
  {| Page.isDraggingOver := st.(Page.isDraggingOver);
     Page.blobURL := st.(Page.blobURL);
     Page.finished := st.(Page.finished);
     Page.toasts := st.(Page.toasts) ++ [Page.toast_error_shown message];
     Page.completions := st.(Page.completions) |}.

(** The completion with every sentinel replaced by a newline. *)
Definition sentinel_to_newline (completion : jsstring) : jsstring :=
  map (fun c => if N.eqb c Page.sentinel then 10%N else c) completion.

(** What becomes of the handler once it has made its call [args]: the
    response [new StreamingTextResponse(result.toAIStream())] when the call
    resolves with [result], a rejection when the call rejects. *)
Definition after_call
    (hosted : Route.StreamTextArgs -> option Route.StreamTextResult)
    (args : Route.StreamTextArgs) : Route.Outcome Route.Response :=
  match hosted args with
  | Some result =>
      Route.Resolved (Route.StreamingTextResponse result.(Route.toAIStream))
  | None => Route.Rejected
  end.

(** * Properties *)

Unset Implicit Arguments.

(** ** Strings *)

Lemma length_app (a b : jsstring) :
  Js.length (a ++ b) = Js.length a + Js.length b.
Proof. unfold Js.length. rewrite List.length_app. lia. Qed.

Lemma length_repeat (c : code_unit) (n : Z) :
  0 <= n -> Js.length (repeat c (Z.to_nat n)) = n.
Proof. intros Hn. unfold Js.length. rewrite repeat_length. lia. Qed.

Lemma eqb_eq (a b : jsstring) : Js.eqb a b = true <-> a = b.
Proof.
  revert b. induction a as [|x a IH]; intros [|y b]; simpl;
    try (split; [discriminate | congruence]); try tauto.
  rewrite andb_true_iff, N.eqb_eq, IH. split.
  - intros [-> ->]. reflexivity.
  - intros E. injection E as -> ->. split; reflexivity.
Qed.

Lemma strip_prefix_Some (p s rest : jsstring) :
  Js.strip_prefix p s = Some rest <-> s = p ++ rest.
Proof.
  revert s. induction p as [|x p IH]; intros s; simpl.
  - split; congruence.
  - destruct s as [|y s].
    + split; discriminate.
    + destruct (N.eqb_spec x y) as [->|Hxy].
      * rewrite IH. split; [intros ->; reflexivity | intros E; congruence].
      * split; [discriminate | intros E; congruence].
Qed.

(** ** The matcher against the language of the pattern *)

Lemma plus_sound set k s g caps :
  Regex.plus set k s = Some (g, caps) ->
  exists rest,
    s = g ++ rest /\ g <> [] /\ forallb set g = true /\ k rest = Some caps.
Proof.
  revert g caps. induction s as [|c s IH]; intros g caps; simpl.
  - discriminate.
  - destruct (set c) eqn:Hc; [|discriminate].
    destruct (Regex.plus set k s) as [[g' caps']|] eqn:Hplus.
    + intros E; injection E as <- <-.
      destruct (IH _ _ eq_refl) as (rest & -> & _ & Hall & Hk).
      exists rest. simpl. rewrite Hc, Hall. repeat split; congruence.
    + destruct (k s) as [caps'|] eqn:Hk; [|discriminate].
      intros E; injection E as <- <-.
      exists s. simpl. rewrite Hc. repeat split; congruence.
Qed.

Lemma plus_complete set k g rest caps :
  g <> [] -> forallb set g = true -> k rest = Some caps ->
  Regex.plus set k (g ++ rest) <> None.
Proof.
  intros Hne Hall Hk. induction g as [|c g IH]; [congruence|].
  simpl in Hall. apply andb_true_iff in Hall as [Hc Hall].
  simpl. rewrite Hc. destruct g as [|c' g].
  - simpl. destruct (Regex.plus set k rest) as [[? ?]|]; [discriminate|].
    rewrite Hk. discriminate.
  - destruct (Regex.plus set k ((c' :: g) ++ rest)) as [[? ?]|] eqn:E.
    + discriminate.
    + exfalso. apply IH; [discriminate | assumption | reflexivity].
Qed.

Lemma exec_sound re s caps :
  Regex.exec re s = Some caps -> Regex.Matches re s caps.
Proof.
  revert s caps. induction re as [|[text|set] re IH]; intros s caps; simpl.
  - destruct s; [|discriminate]. intros E; injection E as <-. constructor.
  - destruct (Js.strip_prefix text s) as [rest|] eqn:Hp; [|discriminate].
    apply strip_prefix_Some in Hp as ->. intros H. constructor. auto.
  - destruct (Regex.plus set (Regex.exec re) s) as [[g caps']|] eqn:Hp;
      [|discriminate].
    intros E; injection E as <-.
    apply plus_sound in Hp as (rest & -> & Hne & Hall & Hk).
    constructor; auto.
Qed.

Lemma exec_complete re s caps :
  Regex.Matches re s caps -> Regex.exec re s <> None.
Proof.
  induction 1 as [|text re s caps _ IH|set re g s caps Hne Hall _ IH]; simpl.
  - discriminate.
  - rewrite (proj2 (strip_prefix_Some text (text ++ s) s) eq_refl). exact IH.
  - destruct (Regex.exec re s) as [caps'|] eqn:Hk; [|congruence].
    pose proof (plus_complete set (Regex.exec re) g s caps' Hne Hall Hk) as Hp.
    destruct (Regex.plus set (Regex.exec re) (g ++ s)) as [[? ?]|];
      [discriminate | congruence].
Qed.

(** ** The pattern of the handler *)

Lemma DataURI_Matches s m p :
  DataURI s m p -> Regex.Matches Route.data_uri s [m; p].
Proof.
  intros (-> & Hm & Hmc & Hp & Hpd). unfold Route.data_uri.
  pose proof (Regex.M_group Regex.dot Hp Hpd Regex.M_end) as Hlast.
  rewrite app_nil_r in Hlast.
  constructor. constructor; auto. constructor. exact Hlast.
Qed.

Lemma Matches_DataURI s caps :
  Regex.Matches Route.data_uri s caps ->
  exists m p, caps = [m; p] /\ DataURI s m p.
Proof.
  unfold Route.data_uri. intros H.
  inversion H as [|? ? s1 ? H1|]; subst; clear H.
  inversion H1 as [| |? ? m s2 caps2 Hm Hmc H2]; subst; clear H1.
  inversion H2 as [|? ? s3 ? H3|]; subst; clear H2.
  inversion H3 as [| |? ? p s4 caps4 Hp Hpd H4]; subst; clear H3.
  inversion H4; subst; clear H4.
  exists m, p. rewrite app_nil_r. repeat split; auto.
Qed.

(** The class holds no [;]: a run of the class that is followed by [;] ends
    at one place only. *)
Lemma class_run_unique (a a' r r' : jsstring) :
  forallb Regex.mime_class a = true -> forallb Regex.mime_class a' = true ->
  a ++ 59%N :: r = a' ++ 59%N :: r' -> a = a' /\ r = r'.
Proof.
  revert a'. induction a as [|x a IH]; intros [|y a']; simpl; intros Ha Ha' E.
  - injection E as ->. auto.
  - injection E as <- _. discriminate.
  - injection E as -> _. discriminate.
  - apply andb_true_iff in Ha as [_ Ha]. apply andb_true_iff in Ha' as [_ Ha'].
    injection E as -> E. destruct (IH a' Ha Ha' E) as [-> ->]. auto.
Qed.

Lemma DataURI_unique s m p m' p' :
  DataURI s m p -> DataURI s m' p' -> m = m' /\ p = p'.
Proof.
  intros (-> & _ & Hmc & _ & _) (E & _ & Hmc' & _ & _).
  apply app_inv_head in E.
  destruct (class_run_unique m m' _ _ Hmc Hmc' E) as [-> E'].
  split; [reflexivity|]. apply (app_inv_head (Js.lit "base64,")). exact E'.
Qed.

Lemma decode_DataURI s m p :
  DataURI s m p ->
  Route.decodeBase64Image s
  = {| Route.mimeType := Some m; Route.image := Some p |}.
Proof.
  intros H. unfold Route.decodeBase64Image.
  pose proof (exec_complete _ _ _ (DataURI_Matches _ _ _ H)) as Hex.
  destruct (Regex.exec Route.data_uri s) as [caps|] eqn:E; [|congruence].
  apply exec_sound, Matches_DataURI in E as (m' & p' & -> & H').
  destruct (DataURI_unique _ _ _ _ _ H H') as [-> ->]. reflexivity.
Qed.

Lemma decode_not_DataURI s :
  (forall m p, ~ DataURI s m p) ->
  Route.decodeBase64Image s
  = {| Route.mimeType := None; Route.image := None |}.
Proof.
  intros H. unfold Route.decodeBase64Image.
  destruct (Regex.exec Route.data_uri s) as [caps|] eqn:E; [|reflexivity].
  apply exec_sound, Matches_DataURI in E as (m & p & _ & Hd).
  destruct (H m p Hd).
Qed.

(** Whatever the handler is given, the parser captures both groups or
    neither, and a captured group is never empty. *)
Lemma decode_cases s :
  (exists m p, DataURI s m p)
  \/ Route.decodeBase64Image s
     = {| Route.mimeType := None; Route.image := None |}.
Proof.
  unfold Route.decodeBase64Image.
  destruct (Regex.exec Route.data_uri s) as [caps|] eqn:E; [|right; reflexivity].
  apply exec_sound, Matches_DataURI in E as (m & p & _ & Hd).
  left. exists m, p. exact Hd.
Qed.

Lemma exec_None_not_DataURI s :
  Regex.exec Route.data_uri s = None -> forall m p, ~ DataURI s m p.
Proof.
  intros E m p H.
  apply (exec_complete _ _ _ (DataURI_Matches _ _ _ H)). exact E.
Qed.

Lemma exec_Some_DataURI s m p :
  Regex.exec Route.data_uri s = Some [m; p] -> DataURI s m p.
Proof.
  intros E. apply exec_sound, Matches_DataURI in E as (m' & p' & E & H).
  injection E as <- <-. exact H.
Qed.

Lemma isSupportedImageType_In (type : jsstring) :
  Utils.isSupportedImageType type = true <-> In type Utils.supportedImageTypes.
Proof.
  unfold Utils.isSupportedImageType. rewrite existsb_exists. split.
  - intros (x & Hin & E). apply eqb_eq in E as ->. exact Hin.
  - intros Hin. exists type. split; [exact Hin | apply eqb_eq; reflexivity].
Qed.

Example decode_png :
  Route.decodeBase64Image (Js.lit "data:image/png;base64,iVBORw0KGgo")
  = {| Route.mimeType := Some (Js.lit "image/png");
       Route.image := Some (Js.lit "iVBORw0KGgo") |}.
Proof. reflexivity. Qed.

Example decode_svg :
  Route.decodeBase64Image (Js.lit "data:image/svg+xml;base64,PHN2Zz4=")
  = {| Route.mimeType := Some (Js.lit "image/svg+xml");
       Route.image := Some (Js.lit "PHN2Zz4=") |}.
Proof. reflexivity. Qed.

Example decode_not_a_data_uri :
  Route.decodeBase64Image (Js.lit "not-a-data-uri")
  = {| Route.mimeType := None; Route.image := None |}.
Proof. reflexivity. Qed.

Example decode_empty_payload :
  Route.decodeBase64Image (Js.lit "data:image/png;base64,")
  = {| Route.mimeType := None; Route.image := None |}.
Proof. reflexivity. Qed.

(** ** The four ways through the handler *)

Section Handler.

Variable isSupportedImageType : jsstring -> bool.

Lemma POST_too_large req :
  Js.length req.(Route.prompt) > 6464471 ->
  Route.POST isSupportedImageType req = Route.Return too_large.
Proof.
  intros H. unfold Route.POST.
  destruct (Z.gtb_spec (Js.length (Route.prompt req)) 6464471); [|lia].
  reflexivity.
Qed.

Lemma POST_invalid req :
  Js.length req.(Route.prompt) <= 6464471 ->
  (forall m p, ~ DataURI req.(Route.prompt) m p) ->
  Route.POST isSupportedImageType req = Route.Return invalid_image_data.
Proof.
  intros H Hno. unfold Route.POST.
  destruct (Z.gtb_spec (Js.length (Route.prompt req)) 6464471); [lia|].
  rewrite (decode_not_DataURI _ Hno). reflexivity.
Qed.

Lemma narrow_nonempty (s : jsstring) : s <> [] -> Js.narrow (Some s) = Some s.
Proof. destruct s; [congruence | reflexivity]. Qed.

Lemma POST_unsupported req m p :
  Js.length req.(Route.prompt) <= 6464471 ->
  DataURI req.(Route.prompt) m p ->
  isSupportedImageType m = false ->
  Route.POST isSupportedImageType req = Route.Return unsupported_format.
Proof.
  intros H Hd Hm. unfold Route.POST.
  destruct (Z.gtb_spec (Js.length (Route.prompt req)) 6464471); [lia|].
  rewrite (decode_DataURI _ _ _ Hd). cbn [Route.mimeType Route.image].
  destruct Hd as (_ & Hm0 & _ & Hp0 & _).
  rewrite (narrow_nonempty _ Hm0), (narrow_nonempty _ Hp0), Hm. reflexivity.
Qed.

Lemma POST_valid req m p :
  Js.length req.(Route.prompt) <= 6464471 ->
  DataURI req.(Route.prompt) m p ->
  isSupportedImageType m = true ->
  Route.POST isSupportedImageType req
  = Route.Await_streamText (call_for p m)
      (fun result =>
         Route.Return (Route.StreamingTextResponse result.(Route.toAIStream))).
Proof.
  intros H Hd Hm. unfold Route.POST.
  destruct (Z.gtb_spec (Js.length (Route.prompt req)) 6464471); [lia|].
  rewrite (decode_DataURI _ _ _ Hd). cbn [Route.mimeType Route.image].
  destruct Hd as (_ & Hm0 & _ & Hp0 & _).
  rewrite (narrow_nonempty _ Hm0), (narrow_nonempty _ Hp0), Hm. reflexivity.
Qed.

End Handler.

(** The one call of the handler, run. *)
Lemma run_call
    (hosted : Route.StreamTextArgs -> option Route.StreamTextResult)
    (args : Route.StreamTextArgs) :
  Route.run hosted
    (Route.Await_streamText args
       (fun result =>
          Route.Return
            (Route.StreamingTextResponse result.(Route.toAIStream))))
  = (after_call hosted args, [args]).
Proof.
  unfold after_call. cbn [Route.run].
  destruct (hosted args); reflexivity.
Qed.

(** * The claims *)

(** ** The relay endpoint *)

(** C1: a request whose prompt is longer than 6,464,471 code units is
    answered with status 400 and the body "Image too large, maximum file
    size is 4.5MB.", and the hosted model is not called. *)
Theorem POST_rejects_oversize
    (isSupportedImageType : jsstring -> bool)
    (hosted : Route.StreamTextArgs -> option Route.StreamTextResult)
    (req : Route.Request) :
  Js.length req.(Route.prompt) > 6464471 ->
  Route.run hosted (Route.POST isSupportedImageType req)
  = (Route.Resolved {| Route.status := 400;
        Route.body :=
          Route.Text "Image too large, maximum file size is 4.5MB." |},
     []).
Proof.
  intros H. rewrite (POST_too_large isSupportedImageType req H). reflexivity.
Qed.

(** A prompt of 7,000,000 code units, as in the example scenario. *)
Lemma POST_rejects_oversize_witness :
  Route.run (fun _ => Some {| Route.toAIStream := [] |})
    (Route.POST Utils.isSupportedImageType
       {| Route.prompt := repeat 65%N (Z.to_nat 7000000) |})
  = (Route.Resolved {| Route.status := 400;
        Route.body :=
          Route.Text "Image too large, maximum file size is 4.5MB." |},
     []).
Proof.
  apply POST_rejects_oversize. cbn [Route.prompt].
  rewrite length_repeat; lia.
Defined.

(** C2: a prompt within the size limit that is not of the form
    [data:<mimeType>;base64,<payload>] (the pattern captures nothing) is
    answered with status 400 and the body "Invalid image data", and the
    hosted model is not called. *)
Theorem POST_rejects_malformed
    (isSupportedImageType : jsstring -> bool)
    (hosted : Route.StreamTextArgs -> option Route.StreamTextResult)
    (req : Route.Request) :
  Js.length req.(Route.prompt) <= 6464471 ->
  (forall m p, ~ DataURI req.(Route.prompt) m p) ->
  Route.run hosted (Route.POST isSupportedImageType req)
  = (Route.Resolved
       {| Route.status := 400; Route.body := Route.Text "Invalid image data" |},
     []).
Proof.
  intros H Hno. rewrite (POST_invalid isSupportedImageType req H Hno).
  reflexivity.
Qed.

(** The example scenario "not-a-data-uri". *)
Lemma POST_rejects_malformed_witness :
  Route.run (fun _ => Some {| Route.toAIStream := [] |})
    (Route.POST Utils.isSupportedImageType
       {| Route.prompt := Js.lit "not-a-data-uri" |})
  = (Route.Resolved
       {| Route.status := 400; Route.body := Route.Text "Invalid image data" |},
     []).
Proof.
  apply POST_rejects_malformed.
  - vm_compute. discriminate.
  - apply exec_None_not_DataURI. reflexivity.
Defined.

(** C3: a prompt within the size limit that parses as a data-URI whose
    captured MIME type is none of image/jpeg, image/png, image/gif and
    image/webp is answered with status 400 and the body "Unsupported format.
    Only JPEG, PNG, GIF, and WEBP files are supported.", and the hosted model
    is not called. *)
Theorem POST_rejects_unsupported
    (hosted : Route.StreamTextArgs -> option Route.StreamTextResult)
    (req : Route.Request) (m p : jsstring) :
  Js.length req.(Route.prompt) <= 6464471 ->
  DataURI req.(Route.prompt) m p ->
  ~ In m [ Js.lit "image/jpeg"; Js.lit "image/png"; Js.lit "image/gif";
           Js.lit "image/webp" ] ->
  Route.run hosted (Route.POST Utils.isSupportedImageType req)
  = (Route.Resolved {| Route.status := 400;
        Route.body := Route.Text
          "Unsupported format. Only JPEG, PNG, GIF, and WEBP files are supported." |},
     []).
Proof.
  intros H Hd Hm.
  rewrite (POST_unsupported Utils.isSupportedImageType req m p H Hd).
  - reflexivity.
  - destruct (Utils.isSupportedImageType m) eqn:E; [|reflexivity].
    apply isSupportedImageType_In in E. contradiction.
Qed.

(** The example scenario "data:image/bmp;base64,AAAA". *)
Lemma POST_rejects_unsupported_witness :
  Route.run (fun _ => Some {| Route.toAIStream := [] |})
    (Route.POST Utils.isSupportedImageType
       {| Route.prompt := Js.lit "data:image/bmp;base64,AAAA" |})
  = (Route.Resolved {| Route.status := 400;
        Route.body := Route.Text
          "Unsupported format. Only JPEG, PNG, GIF, and WEBP files are supported." |},
     []).
Proof.
  apply (POST_rejects_unsupported _ _ (Js.lit "image/bmp") (Js.lit "AAAA")).
  - vm_compute. discriminate.
  - apply exec_Some_DataURI. reflexivity.
  - intros [E|[E|[E|[E|[]]]]]; discriminate E.
Defined.

(** The handler against the validation sequence of the specification. *)
Lemma POST_first_failure
    (isSupportedImageType : jsstring -> bool) (req : Route.Request) :
  match first_failure isSupportedImageType req.(Route.prompt) with
  | Some failure =>
      Route.POST isSupportedImageType req = Route.Return failure
  | None =>
      exists m p,
        DataURI req.(Route.prompt) m p
        /\ Route.POST isSupportedImageType req
           = Route.Await_streamText (call_for p m)
               (fun result =>
                  Route.Return
                    (Route.StreamingTextResponse result.(Route.toAIStream)))
  end.
Proof.
  unfold first_failure, validation_sequence. cbn [find fst snd option_map].
  unfold exceeds_size_limit.
  destruct (Z.gtb_spec (Js.length (Route.prompt req)) 6464471) as [Hgt|Hle].
  - cbn [option_map snd]. apply POST_too_large. lia.
  - destruct (decode_cases (Route.prompt req)) as [(m & p & Hd)|Hnone].
    + unfold not_captured, outside_allow_list.
      rewrite (decode_DataURI _ _ _ Hd). cbn [Route.mimeType].
      destruct (isSupportedImageType m) eqn:Hm; cbn [negb option_map snd].
      * exists m, p. split; [exact Hd|]. apply POST_valid; assumption.
      * apply (POST_unsupported _ _ m p); assumption.
    + unfold not_captured. rewrite Hnone. cbn [option_map snd].
      unfold Route.POST.
      destruct (Z.gtb_spec (Js.length (Route.prompt req)) 6464471); [lia|].
      rewrite Hnone. reflexivity.
Qed.

(** C4: the checks run in the order size limit, data-URI parse, allow-list,
    and the first one that fails decides the response, with no call of the
    hosted model; a request that passes all three is the only one that
    reaches the model, once.  In particular a prompt longer than 6,464,471
    code units gets the oversize response whatever else is wrong with it. *)
Theorem POST_validation_order
    (isSupportedImageType : jsstring -> bool)
    (hosted : Route.StreamTextArgs -> option Route.StreamTextResult)
    (req : Route.Request) :
  match first_failure isSupportedImageType req.(Route.prompt) with
  | Some failure =>
      Route.run hosted (Route.POST isSupportedImageType req)
      = (Route.Resolved failure, [])
  | None =>
      exists args,
        Route.run hosted (Route.POST isSupportedImageType req)
        = (after_call hosted args, [args])
  end
  /\ (Js.length req.(Route.prompt) > 6464471 ->
      Route.run hosted (Route.POST isSupportedImageType req)
      = (Route.Resolved {| Route.status := 400;
            Route.body :=
              Route.Text "Image too large, maximum file size is 4.5MB." |},
         [])).
Proof.
  split.
  - pose proof (POST_first_failure isSupportedImageType req) as H.
    destruct (first_failure isSupportedImageType (Route.prompt req)).
    + rewrite H. reflexivity.
    + destruct H as (m & p & _ & ->). exists (call_for p m).
      apply run_call.
  - intros H. rewrite (POST_too_large isSupportedImageType req H).
    reflexivity.
Qed.

(** An oversize prompt that is malformed, and one of 7,000,000 code units
    that is a data-URI of an unsupported type: both get the oversize
    response. *)
Lemma POST_validation_order_witness :
  Route.run (fun _ => Some {| Route.toAIStream := [] |})
    (Route.POST Utils.isSupportedImageType
       {| Route.prompt := repeat 120%N (Z.to_nat 6464472) |})
  = (Route.Resolved too_large, [])
  /\ Route.run (fun _ => Some {| Route.toAIStream := [] |})
       (Route.POST Utils.isSupportedImageType
          {| Route.prompt :=
               Js.lit "data:image/bmp;base64,"
               ++ repeat 65%N (Z.to_nat 6999978) |})
     = (Route.Resolved too_large, []).
Proof.
  split.
  - apply POST_validation_order. cbn [Route.prompt].
    rewrite length_repeat; lia.
  - apply POST_validation_order. cbn [Route.prompt].
    rewrite length_app, length_repeat by lia.
    change (Js.length (Js.lit "data:image/bmp;base64,")) with 22. lia.
Defined.




(** C6: on a valid request the conversation sent to the hosted model has
    exactly two messages: a user message holding the fixed prompt text and
    the captured image with its MIME type, then an assistant message holding
    the sentinel marker alone. *)
Theorem POST_conversation
    (isSupportedImageType : jsstring -> bool)
    (hosted : Route.StreamTextArgs -> option Route.StreamTextResult)
    (req : Route.Request) (m p : jsstring) :
  Js.length req.(Route.prompt) <= 6464471 ->
  DataURI req.(Route.prompt) m p ->
  isSupportedImageType m = true ->
  map Route.messages
    (snd (Route.run hosted (Route.POST isSupportedImageType req)))
  = [ [ {| Route.role := Route.user;
           Route.content := [ Route.TextPart Route.prompt_task;
                              Route.ImagePart p m ] |};
        {| Route.role := Route.assistant;
           Route.content := [ Route.TextPart [9650%N] ] |} ] ].
Proof.
  intros H Hd Hm.
  rewrite (POST_valid isSupportedImageType req m p H Hd Hm), run_call.
  reflexivity.
Qed.

Lemma POST_conversation_witness :
  map Route.messages
    (snd (Route.run (fun _ => Some {| Route.toAIStream := [] |})
            (Route.POST Utils.isSupportedImageType
               {| Route.prompt := Js.lit "data:image/png;base64,iVBORw0KGgo" |})))
  = [ [ {| Route.role := Route.user;
           Route.content := [ Route.TextPart Route.prompt_task;
                              Route.ImagePart (Js.lit "iVBORw0KGgo")
                                (Js.lit "image/png") ] |};
        {| Route.role := Route.assistant;
           Route.content := [ Route.TextPart [9650%N] ] |} ] ].
Proof.
  apply (POST_conversation Utils.isSupportedImageType).
  - vm_compute. discriminate.
  - apply exec_Some_DataURI. reflexivity.
  - reflexivity.
Defined.

(** ** What the pattern leaves out *)

Lemma mime_class_dot (c : code_unit) :
  Regex.mime_class c = true -> Regex.dot c = true.
Proof.
  unfold Regex.dot. intros H.
  destruct (N.eqb_spec c 10) as [->|_]; [discriminate H|].
  destruct (N.eqb_spec c 13) as [->|_]; [discriminate H|].
  destruct (N.eqb_spec c 8232) as [->|_]; [discriminate H|].
  destruct (N.eqb_spec c 8233) as [->|_]; [discriminate H|].
  reflexivity.
Qed.

Lemma mime_class_no_digit (c : code_unit) :
  (48 <= c <= 57)%N -> Regex.mime_class c = false.
Proof.
  intros H. unfold Regex.mime_class.
  repeat rewrite orb_false_iff. repeat split.
  - apply andb_false_iff. left. apply N.leb_gt. lia.
  - apply andb_false_iff. left. apply N.leb_gt. lia.
  - apply N.eqb_neq. lia.
  - apply N.eqb_neq. lia.
  - apply N.eqb_neq. lia.
Qed.

Lemma forallb_impl (f g : code_unit -> bool) (l : jsstring) :
  (forall c, f c = true -> g c = true) ->
  forallb f l = true -> forallb g l = true.
Proof.
  intros Hfg H. rewrite forallb_forall in *. auto.
Qed.

(** A string the pattern matches is on one line. *)
Lemma DataURI_one_line s m p : DataURI s m p -> forallb Regex.dot s = true.
Proof.
  intros (-> & _ & Hmc & _ & Hpd).
  rewrite !forallb_app, Hpd, (forallb_impl _ _ m mime_class_dot Hmc).
  reflexivity.
Qed.

Lemma line_terminator_not_DataURI s c :
  In c s -> Regex.dot c = false -> forall m p, ~ DataURI s m p.
Proof.
  intros Hin Hc m p H. apply DataURI_one_line in H.
  rewrite forallb_forall in H. rewrite (H c Hin) in Hc. discriminate.
Qed.

(** Text that is followed by [;base64,] and starts like [;base64,] is empty
    or starts with the whole of it: [;base64,] overlaps itself nowhere. *)
Lemma marker_overlap (m p p' : jsstring) :
  m ++ Js.lit ";base64," ++ p = Js.lit ";base64," ++ p' ->
  m = [] \/ exists b, m = Js.lit ";base64," ++ b.
Proof.
  intros E.
  do 8 (destruct m as [|? m];
        [ first [ left; reflexivity | discriminate E ] | ]).
  right. exists m. cbn in E |- *. congruence.
Qed.

Lemma class_run_or_marker (m' : jsstring) : forall m p p',
  forallb Regex.mime_class m' = true ->
  m ++ Js.lit ";base64," ++ p = m' ++ Js.lit ";base64," ++ p' ->
  forallb Regex.mime_class m = true \/ holds_marker m.
Proof.
  induction m' as [|y m' IH]; intros m p p' Hc E.
  - destruct (marker_overlap m p p' E) as [->|(b & ->)].
    + left. reflexivity.
    + right. exists [], b. reflexivity.
  - destruct m as [|x m]; [left; reflexivity|].
    cbn [forallb] in Hc. apply andb_true_iff in Hc as [Hy Hc].
    injection E as -> E.
    destruct (IH m p p' Hc E) as [Hm|(a & b & ->)].
    + left. cbn [forallb]. rewrite Hy, Hm. reflexivity.
    + right. exists (y :: a), b. reflexivity.
Qed.

Lemma excluded_unit_not_DataURI (m p : jsstring) (c : code_unit) :
  In c m -> Regex.mime_class c = false -> ~ holds_marker m ->
  forall m' p', ~ DataURI (data_uri_string m p) m' p'.
Proof.
  intros Hin Hc Hmarker m' p' (E & _ & Hmc' & _ & _).
  unfold data_uri_string in E. apply app_inv_head in E.
  destruct (class_run_or_marker m' m p p' Hmc' E) as [Hm|Hm].
  - rewrite forallb_forall in Hm. rewrite (Hm c Hin) in Hc. discriminate.
  - contradiction.
Qed.

Lemma decode_captures s :
  match Route.decodeBase64Image s with
  | {| Route.mimeType := Some m; Route.image := Some p |} => DataURI s m p
  | {| Route.mimeType := None; Route.image := None |} => True
  | _ => False
  end.
Proof.
  unfold Route.decodeBase64Image.
  destruct (Regex.exec Route.data_uri s) as [caps|] eqn:E; [|exact I].
  apply exec_sound, Matches_DataURI in E as (m & p & -> & Hd). exact Hd.
Qed.

(** C9, within the size limit: the parser captures as MIME type only runs of
    ASCII letters, [-], [+] and [/] (no digit, no [.]), and as payload only
    text without a line terminator.  So a data-URI within the size limit whose MIME type (the
    text between [data:] and the first [;base64,]) holds a digit or another
    code unit outside the class, or whose payload holds a newline, is
    answered with "Invalid image data", whatever the allow-list. *)
Theorem POST_rejects_irregular_data_uri
    (isSupportedImageType : jsstring -> bool)
    (hosted : Route.StreamTextArgs -> option Route.StreamTextResult) :
  (forall s m,
     (Route.decodeBase64Image s).(Route.mimeType) = Some m ->
     forallb Regex.mime_class m = true)
  /\ (forall c, (48 <= c <= 57)%N \/ c = 46%N -> Regex.mime_class c = false)
  /\ (forall s p,
        (Route.decodeBase64Image s).(Route.image) = Some p ->
        forallb Regex.dot p = true)
  /\ (forall m p,
        Js.length (data_uri_string m p) <= 6464471 ->
        ((exists c, In c m /\ Regex.mime_class c = false) /\ ~ holds_marker m)
        \/ (exists c, In c p /\ Regex.dot c = false) ->
        Route.run hosted
          (Route.POST isSupportedImageType
             {| Route.prompt := data_uri_string m p |})
        = (Route.Resolved {| Route.status := 400;
              Route.body := Route.Text "Invalid image data" |}, [])).
Proof.
  repeat split.
  - intros s m E. pose proof (decode_captures s) as H.
    destruct (Route.decodeBase64Image s) as [[m'|] [p'|]]; try contradiction;
      cbn [Route.mimeType] in E; [|discriminate E].
    injection E as ->. apply H.
  - intros c [Hc| ->]; [apply mime_class_no_digit; exact Hc | reflexivity].
  - intros s p E. pose proof (decode_captures s) as H.
    destruct (Route.decodeBase64Image s) as [[m'|] [p'|]]; try contradiction;
      cbn [Route.image] in E; [|discriminate E].
    injection E as ->. apply H.
  - intros m p Hlen Hirr.
    rewrite (POST_invalid isSupportedImageType
               {| Route.prompt := data_uri_string m p |} Hlen); [reflexivity|].
    cbn [Route.prompt].
    destruct Hirr as [[(c & Hin & Hc) Hmarker]|(c & Hin & Hc)].
    + apply (excluded_unit_not_DataURI m p c Hin Hc Hmarker).
    + apply (line_terminator_not_DataURI _ c); [|exact Hc].
      unfold data_uri_string. rewrite !in_app_iff. auto.
Qed.

(** "data:image/jp2;base64,AAAA" (a digit in the MIME type) and a PNG
    data-URI with a newline in its payload. *)
Lemma POST_rejects_irregular_data_uri_witness :
  Route.run (fun _ => Some {| Route.toAIStream := [] |})
    (Route.POST Utils.isSupportedImageType
       {| Route.prompt := data_uri_string (Js.lit "image/jp2") (Js.lit "AAAA") |})
  = (Route.Resolved invalid_image_data, [])
  /\ Route.run (fun _ => Some {| Route.toAIStream := [] |})
       (Route.POST Utils.isSupportedImageType
          {| Route.prompt :=
               data_uri_string (Js.lit "image/png") [65; 65; 10; 65; 65]%N |})
     = (Route.Resolved invalid_image_data, []).
Proof.
  split.
  - apply POST_rejects_irregular_data_uri.
    + vm_compute. discriminate.
    + left. split.
      * exists 50%N. split; [vm_compute; tauto | reflexivity].
      * intros (a & b & E).
        do 9 (destruct a as [|? a]; [discriminate E|]);
          destruct a; discriminate E.
  - apply POST_rejects_irregular_data_uri.
    + vm_compute. discriminate.
    + right. exists 10%N. split; [vm_compute; tauto | reflexivity].
Defined.

(** The same irregular data-URI, too long: the size check comes first and
    the response is the oversize one, not "Invalid image data". *)
Lemma oversize_irregular_data_uri :
  In 50%N (Js.lit "image/jp2")
  /\ Regex.mime_class 50%N = false
  /\ ~ holds_marker (Js.lit "image/jp2")
  /\ Route.run (fun _ => Some {| Route.toAIStream := [] |})
       (Route.POST Utils.isSupportedImageType
          {| Route.prompt :=
               data_uri_string (Js.lit "image/jp2")
                 (repeat 65%N (Z.to_nat 6464471)) |})
     <> (Route.Resolved {| Route.status := 400;
            Route.body := Route.Text "Invalid image data" |}, []).
Proof.
  split; [vm_compute; tauto|]. split; [reflexivity|]. split.
  - intros (a & b & E).
    do 9 (destruct a as [|? a]; [discriminate E|]); destruct a; discriminate E.
  - rewrite (POST_too_large Utils.isSupportedImageType).
    + discriminate.
    + cbn [Route.prompt]. unfold data_uri_string.
      rewrite !length_app, length_repeat by lia.
      change (Js.length (Js.lit "data:")) with 5.
      change (Js.length (Js.lit "image/jp2")) with 9.
      change (Js.length (Js.lit ";base64,")) with 8. lia.
Qed.

(** When [m] holds [;base64,] the pattern reads the MIME type up to the
    first one: ["data:a;base64,1;base64,p"] is a data-URI of type ["a"]. *)
Example marker_inside :
  Route.decodeBase64Image
    (data_uri_string (Js.lit "a;base64,1") (Js.lit "p"))
  = {| Route.mimeType := Some (Js.lit "a");
       Route.image := Some (Js.lit "1;base64,p") |}.
Proof. reflexivity. Qed.

(** ** The page component *)

(** The first piece of a split holds no separator and is followed either by
    nothing or by a separator and the split of what is left. *)
Lemma split_shape (sep : code_unit) (s : jsstring) :
  exists seg segs,
    Js.split sep s = seg :: segs
    /\ ~ In sep seg
    /\ ((segs = [] /\ s = seg)
        \/ exists s', s = seg ++ sep :: s' /\ segs = Js.split sep s').
Proof.
  induction s as [|c s (seg & segs & E & Hnot & Hrest)]; simpl.
  - exists [], []. repeat split; auto.
  - destruct (N.eqb_spec c sep) as [->|Hc].
    + exists [], (Js.split sep s). repeat split; auto.
      right. exists s. auto.
    + rewrite E. exists (c :: seg), segs. repeat split.
      * intros [H|H]; [congruence | contradiction].
      * destruct Hrest as [[-> ->]|(s' & -> & ->)]; [left; auto|].
        right. exists s'. auto.
Qed.

Lemma sentinels_none (s : jsstring) :
  ~ In Page.sentinel s -> sentinels s = 0%nat.
Proof. intros H. apply count_occ_not_In. exact H. Qed.

Lemma sentinels_cut (a b : jsstring) :
  sentinels (a ++ Page.sentinel :: b) = (sentinels a + S (sentinels b))%nat.
Proof.
  unfold sentinels. rewrite count_occ_app, count_occ_cons_eq; reflexivity.
Qed.

(** C7, as the code has it: the split never fails and the description is
    always there.  Without a sentinel the whole completion is the
    description and there is no text; with exactly one, description and text
    are what stands before and after it; with more, the text ends at the
    second sentinel and what follows is in neither section. *)
Theorem description_text_by_sentinels (completion : jsstring) :
  (sentinels completion = 0%nat ->
   Page.description_text completion = (Some completion, None))
  /\ (sentinels completion = 1%nat ->
      exists description text,
        Page.description_text completion = (Some description, Some text)
        /\ completion = description ++ Page.sentinel :: text)
  /\ ((sentinels completion > 1)%nat ->
      exists description text rest,
        Page.description_text completion = (Some description, Some text)
        /\ completion
           = description ++ Page.sentinel :: text ++ Page.sentinel :: rest
        /\ ~ In Page.sentinel description
        /\ ~ In Page.sentinel text).
Proof.
  unfold Page.description_text.
  destruct (split_shape Page.sentinel completion)
    as (d & segs & E & Hd & [[-> ->]|(s' & -> & ->)]).
  - rewrite E, (sentinels_none _ Hd). repeat split.
    + intros H. discriminate H.
    + intros H. inversion H.
  - rewrite E, sentinels_cut, (sentinels_none _ Hd).
    destruct (split_shape Page.sentinel s')
      as (t & segs & E' & Ht & [[-> ->]|(s'' & -> & ->)]).
    + rewrite E', (sentinels_none _ Ht). repeat split.
      * intros H. discriminate H.
      * intros _. exists d, t. auto.
      * intros H. cbn in H. lia.
    + rewrite E', sentinels_cut, (sentinels_none _ Ht). repeat split.
      * intros H. discriminate H.
      * intros H. cbn in H. lia.
      * intros _. exists d, t, s''. auto.
Qed.

(** "a▲b", "ab" and "a▲b▲c". *)
Lemma description_text_by_sentinels_witness :
  (exists description text,
     Page.description_text [97; 9650; 98]%N = (Some description, Some text)
     /\ [97; 9650; 98]%N = description ++ Page.sentinel :: text)
  /\ Page.description_text [97; 98]%N = (Some [97; 98]%N, None)
  /\ (exists description text rest,
        Page.description_text [97; 9650; 98; 9650; 99]%N
        = (Some description, Some text)
        /\ [97; 9650; 98; 9650; 99]%N
           = description ++ Page.sentinel :: text ++ Page.sentinel :: rest
        /\ ~ In Page.sentinel description
        /\ ~ In Page.sentinel text).
Proof.
  split; [|split].
  - apply (description_text_by_sentinels [97; 9650; 98]%N). reflexivity.
  - apply (description_text_by_sentinels [97; 98]%N). reflexivity.
  - apply (description_text_by_sentinels [97; 9650; 98; 9650; 99]%N).
    vm_compute. lia.
Defined.

(** "a▲b▲c": the text is "b", the third segment "c" is no part of it. *)
Lemma third_segment_dropped :
  Js.split Page.sentinel [97; 9650; 98; 9650; 99]%N = [[97]; [98]; [99]]%N
  /\ Page.description_text [97; 9650; 98; 9650; 99]%N
     = (Some [97]%N, Some [98]%N)
  /\ ~ extras_in_text [97; 9650; 98; 9650; 99]%N.
Proof.
  split; [reflexivity|]. split; [reflexivity|].
  intros H. destruct (H [99%N]) as (text & E & before & after & Hpart).
  - cbn. auto.
  - cbn in E. injection E as <-.
    destruct before as [|x [|y before]]; cbn in Hpart; congruence.
Qed.

Example max_file_size_exact : 2 * Page.max_file_size = 9 * 1024 * 1024.
Proof. reflexivity. Qed.

Section Submit.

Variable toBase64 : Page.File -> option jsstring.
Variable createObjectURL : Page.File -> jsstring.

(** What a call of [toast.error] leaves: one more toast, nothing else. *)
Lemma toast_error_state (message : string) (st : Page.State) :
  execState (Page.toast_error message) st
  = {| Page.isDraggingOver := st.(Page.isDraggingOver);
       Page.blobURL := st.(Page.blobURL);
       Page.finished := st.(Page.finished);
       Page.toasts := st.(Page.toasts) ++ [Page.toast_error_shown message];
       Page.completions := st.(Page.completions) |}.
Proof. reflexivity. Qed.

(** [submit] on a file stops at the first failing check with one toast. *)
Lemma submit_failure (isSupportedImageType : jsstring -> bool)
    (file : Page.File) (st : Page.State) :
  isSupportedImageType file.(Page.type) = false
  \/ file.(Page.size) > Page.max_file_size
  \/ (exists base64,
        toBase64 file = Some base64 /\ Js.length base64 > 6464471) ->
  exists message,
    execState
      (Page.submit isSupportedImageType toBase64 createObjectURL (Some file))
      st
    = execState (Page.toast_error message) st.
Proof.
  intros H. unfold Page.submit.
  destruct (isSupportedImageType (Page.type file)) eqn:Htype; cbn [negb].
  2: { eexists. reflexivity. }
  destruct (Z.gtb_spec (Page.size file) Page.max_file_size) as [Hsize|Hsize].
  { eexists. reflexivity. }
  destruct H as [H|[H|(base64 & E & Hlen)]]; [discriminate H | lia |].
  rewrite E.
  destruct (Z.gtb_spec (Js.length base64) 6464471); [|lia].
  eexists. reflexivity.
Qed.

End Submit.

(** C8: for a file whose type is outside the allow-list, or whose size
    exceeds 4.5 * 1024 * 1024 bytes, or whose data URL is longer than
    6,464,471 code units, [submit] shows one error toast and hands nothing to
    [complete]: no request reaches the relay, and the blob URL and the
    finished flag stay as they are. *)
Theorem submit_rejects_invalid_upload
    (toBase64 : Page.File -> option jsstring)
    (createObjectURL : Page.File -> jsstring)
    (file : Page.File) (st : Page.State) :
  ~ In file.(Page.type)
      [ Js.lit "image/jpeg"; Js.lit "image/png"; Js.lit "image/gif";
        Js.lit "image/webp" ]
  \/ 2 * file.(Page.size) > 9 * 1024 * 1024
  \/ (exists base64,
        toBase64 file = Some base64 /\ Js.length base64 > 6464471) ->
  let st' :=
    execState
      (Page.submit Utils.isSupportedImageType toBase64 createObjectURL
         (Some file)) st in
  (exists message,
     st'.(Page.toasts) = st.(Page.toasts) ++ [Page.toast_error_shown message])
  /\ st'.(Page.completions) = st.(Page.completions)
  /\ st'.(Page.blobURL) = st.(Page.blobURL)
  /\ st'.(Page.finished) = st.(Page.finished).
Proof.
  intros H st'.
  destruct (submit_failure toBase64 createObjectURL
              Utils.isSupportedImageType file st) as (message & E).
  - destruct H as [H|[H|H]]; [left | right; left | right; right; exact H].
    + destruct (Utils.isSupportedImageType (Page.type file)) eqn:Ht;
        [|reflexivity].
      apply isSupportedImageType_In in Ht. contradiction.
    + unfold Page.max_file_size. lia.
  - subst st'. rewrite E, toast_error_state. cbn. eauto.
Qed.

(** A BMP file, a PNG of 5,000,000 bytes, and a small PNG whose data URL
    comes out too long. *)
Lemma submit_rejects_invalid_upload_witness :
  let st0 :=
    {| Page.isDraggingOver := false; Page.blobURL := None;
       Page.finished := false; Page.toasts := []; Page.completions := [] |} in
  let run file data_url :=
    execState
      (Page.submit Utils.isSupportedImageType (fun _ => Some data_url)
         (fun _ => Js.lit "blob:1") (Some file)) st0 in
  (run {| Page.type := Js.lit "image/bmp"; Page.size := 100 |}
       (Js.lit "data:image/bmp;base64,AAAA")).(Page.completions) = []
  /\ (run {| Page.type := Js.lit "image/png"; Page.size := 5000000 |}
          (Js.lit "data:image/png;base64,AAAA")).(Page.completions) = []
  /\ (run {| Page.type := Js.lit "image/png"; Page.size := 100 |}
          (repeat 65%N (Z.to_nat 6464472))).(Page.completions) = [].
Proof.
  intros st0 run. split; [|split].
  - apply (submit_rejects_invalid_upload
             (fun _ => Some (Js.lit "data:image/bmp;base64,AAAA"))
             (fun _ => Js.lit "blob:1")
             {| Page.type := Js.lit "image/bmp"; Page.size := 100 |} st0).
    left. intros [E|[E|[E|[E|[]]]]]; discriminate E.
  - apply (submit_rejects_invalid_upload
             (fun _ => Some (Js.lit "data:image/png;base64,AAAA"))
             (fun _ => Js.lit "blob:1")
             {| Page.type := Js.lit "image/png"; Page.size := 5000000 |} st0).
    right; left. cbn [Page.size]. lia.
  - apply (submit_rejects_invalid_upload
             (fun _ => Some (repeat 65%N (Z.to_nat 6464472)))
             (fun _ => Js.lit "blob:1")
             {| Page.type := Js.lit "image/png"; Page.size := 100 |} st0).
    right; right. eexists. split; [reflexivity|].
    rewrite length_repeat; lia.
Defined.

(** C10: [submit] without a file returns at once and leaves the state as it
    is: no toast, no request, blob URL and finished flag untouched.  So do
    the paste and the file-input handlers on an event that carries no file;
    the drop handler then does no more than reset its dragging flag. *)
Theorem submit_nothing_is_noop
    (isSupportedImageType : jsstring -> bool)
    (toBase64 : Page.File -> option jsstring)
    (createObjectURL : Page.File -> jsstring)
    (st : Page.State) :
  runState
    (Page.submit isSupportedImageType toBase64 createObjectURL None) st
  = (tt, st)
  /\ (forall e,
        Page.first_file (option_map Page.files e.(Page.clipboardData)) = None ->
        runState
          (Page.handlePaste isSupportedImageType toBase64 createObjectURL e)
          st
        = (tt, st))
  /\ (forall e,
        Page.first_file e.(Page.target_files) = None ->
        runState
          (Page.handleInputChange isSupportedImageType toBase64
             createObjectURL e) st
        = (tt, st))
  /\ (forall e,
        Page.first_file (option_map Page.files e.(Page.dataTransfer)) = None ->
        runState
          (Page.handleDrop isSupportedImageType toBase64 createObjectURL e) st
        = runState (Page.setIsDraggingOver false) st).
Proof.
  repeat split.
  - intros e H. unfold Page.handlePaste. rewrite H. reflexivity.
  - intros e H. unfold Page.handleInputChange. rewrite H. reflexivity.
  - intros e H. unfold Page.handleDrop. rewrite H. reflexivity.
Qed.

(** A paste without clipboard data, a file input left empty and a drop of
    something that is no file. *)
Lemma submit_nothing_is_noop_witness :
  let st0 :=
    {| Page.isDraggingOver := true; Page.blobURL := Some (Js.lit "blob:1");
       Page.finished := true; Page.toasts := [];
       Page.completions := [Js.lit "data:image/png;base64,AAAA"] |} in
  runState
    (Page.handlePaste Utils.isSupportedImageType (fun _ => None)
       (fun _ => []) {| Page.clipboardData := None |}) st0
  = (tt, st0)
  /\ runState
       (Page.handleInputChange Utils.isSupportedImageType (fun _ => None)
          (fun _ => []) {| Page.target_files := Some [] |}) st0
     = (tt, st0)
  /\ runState
       (Page.handleDrop Utils.isSupportedImageType (fun _ => None)
          (fun _ => [])
          {| Page.dataTransfer := Some {| Page.files := [] |} |}) st0
     = runState (Page.setIsDraggingOver false) st0.
Proof.
  intros st0. split; [|split].
  - apply (submit_nothing_is_noop Utils.isSupportedImageType
             (fun _ => None) (fun _ => []) st0). reflexivity.
  - apply (submit_nothing_is_noop Utils.isSupportedImageType
             (fun _ => None) (fun _ => []) st0). reflexivity.
  - apply (submit_nothing_is_noop Utils.isSupportedImageType
             (fun _ => None) (fun _ => []) st0). reflexivity.
Defined.

(** * Further properties of the route handler *)

Lemma length_lit_data : Js.length (Js.lit "data:") = 5.
Proof. reflexivity. Qed.

Lemma length_lit_marker : Js.length (Js.lit ";base64,") = 8.
Proof. reflexivity. Qed.

Lemma length_data_uri_string (m p : jsstring) :
  Js.length (data_uri_string m p) = Js.length m + Js.length p + 13.
Proof.
  unfold data_uri_string.
  rewrite !length_app, length_lit_data, length_lit_marker. lia.
Qed.

Lemma length_nonempty (s : jsstring) : s <> [] -> 0 < Js.length s.
Proof. destruct s; [congruence | unfold Js.length; cbn; lia]. Qed.

(** X1: [decodeBase64Image] gives back the two parts of a data-URI built
    from a non-empty MIME type over the class and a non-empty payload
    without line terminators. *)
Theorem decode_data_uri_string (m p : jsstring) :
  m <> [] -> forallb Regex.mime_class m = true ->
  p <> [] -> forallb Regex.dot p = true ->
  Route.decodeBase64Image (data_uri_string m p)
  = {| Route.mimeType := Some m; Route.image := Some p |}.
Proof.
  intros Hm Hmc Hp Hpd. apply decode_DataURI.
  unfold DataURI, data_uri_string. auto.
Qed.

Lemma decode_data_uri_string_witness :
  Route.decodeBase64Image
    (data_uri_string (Js.lit "image/svg+xml") (Js.lit "PHN2Zz4="))
  = {| Route.mimeType := Some (Js.lit "image/svg+xml");
       Route.image := Some (Js.lit "PHN2Zz4=") |}.
Proof.
  apply decode_data_uri_string;
    first [ discriminate | reflexivity ].
Defined.

(** X2: [decodeBase64Image] captures both groups or none.  When it captures,
    neither group is empty and the input is exactly [data:], the MIME type,
    [;base64,] and the payload: nothing of the input is left out. *)
Theorem decode_all_or_nothing (s : jsstring) :
  (exists m p,
     Route.decodeBase64Image s
     = {| Route.mimeType := Some m; Route.image := Some p |}
     /\ m <> [] /\ p <> []
     /\ s = Js.lit "data:" ++ m ++ Js.lit ";base64," ++ p)
  \/ Route.decodeBase64Image s
     = {| Route.mimeType := None; Route.image := None |}.
Proof.
  destruct (decode_cases s) as [(m & p & Hd)|Hnone]; [left | right; exact Hnone].
  exists m, p. split; [apply decode_DataURI; exact Hd|].
  destruct Hd as (E & Hm & _ & Hp & _). auto.
Qed.

(** The handler against any hosted model, by the outcome of its checks. *)
Lemma run_POST_cases
    (isSupportedImageType : jsstring -> bool)
    (hosted : Route.StreamTextArgs -> option Route.StreamTextResult)
    (req : Route.Request) :
  (exists failure,
     In failure [too_large; invalid_image_data; unsupported_format]
     /\ Route.run hosted (Route.POST isSupportedImageType req)
        = (Route.Resolved failure, []))
  \/ (exists m p,
        Js.length req.(Route.prompt) <= 6464471
        /\ DataURI req.(Route.prompt) m p
        /\ isSupportedImageType m = true
        /\ Route.run hosted (Route.POST isSupportedImageType req)
           = (after_call hosted (call_for p m), [call_for p m])).
Proof.
  destruct (Z.gtb_spec (Js.length (Route.prompt req)) 6464471) as [Hgt|Hle].
  { left. exists too_large. split; [cbn; auto|].
    rewrite (POST_too_large isSupportedImageType req); [reflexivity | lia]. }
  destruct (decode_cases (Route.prompt req)) as [(m & p & Hd)|Hnone].
  - destruct (isSupportedImageType m) eqn:Hm.
    + right. exists m, p. split; [exact Hle|]. split; [exact Hd|].
      split; [exact Hm|].
      rewrite (POST_valid isSupportedImageType req m p Hle Hd Hm).
      apply run_call.
    + left. exists unsupported_format. split; [cbn; auto|].
      rewrite (POST_unsupported isSupportedImageType req m p Hle Hd Hm).
      reflexivity.
  - left. exists invalid_image_data. split; [cbn; auto|].
    unfold Route.POST.
    destruct (Z.gtb_spec (Js.length (Route.prompt req)) 6464471); [lia|].
    rewrite Hnone. reflexivity.
Qed.

(** X3: whatever the request with its string prompt, the helper and the
    hosted model (one whose call rejects too), the handler calls the model at
    most once.  Without a call it resolves with a response of status 400 and
    a text body.  With its one call it resolves with
    [new StreamingTextResponse(result.toAIStream())] when the call resolved
    with [result], and rejects when the call rejected; it rejects in no other
    case. *)
Theorem POST_status_and_calls
    (isSupportedImageType : jsstring -> bool)
    (hosted : Route.StreamTextArgs -> option Route.StreamTextResult)
    (req : Route.Request) :
  let outcome := Route.run hosted (Route.POST isSupportedImageType req) in
  (snd outcome = []
   /\ exists text,
        fst outcome
        = Route.Resolved
            {| Route.status := 400; Route.body := Route.Text text |})
  \/ (exists args,
        snd outcome = [args]
        /\ fst outcome
           = match hosted args with
             | Some result =>
                 Route.Resolved
                   (Route.StreamingTextResponse result.(Route.toAIStream))
             | None => Route.Rejected
             end).
Proof.
  intros outcome. subst outcome.
  destruct (run_POST_cases isSupportedImageType hosted req)
    as [(failure & Hin & ->)|(m & p & _ & _ & _ & ->)].
  - left. cbn [fst snd]. split; [reflexivity|].
    destruct Hin as [<-|[<-|[<-|[]]]]; eexists; reflexivity.
  - right. exists (call_for p m). split; reflexivity.
Qed.

(** X4: what reaches the hosted model.  Every call the handler makes carries
    the conversation for a MIME type the helper accepts and a payload that,
    put back together with it, is the prompt; the type is over the class,
    the payload is on one line and between 1 and 6,464,457 code units long. *)
Theorem POST_call_contents
    (isSupportedImageType : jsstring -> bool)
    (hosted : Route.StreamTextArgs -> option Route.StreamTextResult)
    (req : Route.Request) (args : Route.StreamTextArgs) :
  In args (snd (Route.run hosted (Route.POST isSupportedImageType req))) ->
  exists m p,
    args.(Route.messages) = conversation p m
    /\ args.(Route.model) = Route.google "models/gemini-1.5-pro-latest"
    /\ isSupportedImageType m = true
    /\ req.(Route.prompt) = Js.lit "data:" ++ m ++ Js.lit ";base64," ++ p
    /\ forallb Regex.mime_class m = true
    /\ forallb Regex.dot p = true
    /\ 1 <= Js.length p <= 6464457.
Proof.
  intros Hin.
  destruct (run_POST_cases isSupportedImageType hosted req)
    as [(failure & _ & E)|(m & p & Hle & Hd & Hm & E)];
    rewrite E in Hin; cbn [snd] in Hin; [destruct Hin|].
  destruct Hin as [<-|[]]. exists m, p.
  destruct Hd as (Eprompt & Hm0 & Hmc & Hp0 & Hpd).
  repeat split; try assumption; try reflexivity.
  - pose proof (length_nonempty p Hp0). lia.
  - pose proof (length_nonempty m Hm0) as Hlm.
    change (Js.lit "data:" ++ m ++ Js.lit ";base64," ++ p)
      with (data_uri_string m p) in Eprompt.
    rewrite Eprompt, length_data_uri_string in Hle. lia.
Qed.

Lemma POST_call_contents_witness :
  exists m p,
    (call_for (Js.lit "iVBORw0KGgo") (Js.lit "image/png")).(Route.messages)
    = conversation p m
    /\ (call_for (Js.lit "iVBORw0KGgo") (Js.lit "image/png")).(Route.model)
       = Route.google "models/gemini-1.5-pro-latest"
    /\ Utils.isSupportedImageType m = true
    /\ Js.lit "data:image/png;base64,iVBORw0KGgo"
       = Js.lit "data:" ++ m ++ Js.lit ";base64," ++ p
    /\ forallb Regex.mime_class m = true
    /\ forallb Regex.dot p = true
    /\ 1 <= Js.length p <= 6464457.
Proof.
  apply (POST_call_contents Utils.isSupportedImageType
           (fun _ => Some {| Route.toAIStream := [] |})
           {| Route.prompt := Js.lit "data:image/png;base64,iVBORw0KGgo" |}).
  vm_compute. left. reflexivity.
Defined.

(** A prompt within the size limit never gets the oversize response. *)
Lemma POST_within_limit
    (isSupportedImageType : jsstring -> bool)
    (hosted : Route.StreamTextArgs -> option Route.StreamTextResult)
    (req : Route.Request) :
  Js.length req.(Route.prompt) <= 6464471 ->
  fst (Route.run hosted (Route.POST isSupportedImageType req))
  <> Route.Resolved too_large.
Proof.
  intros Hle.
  destruct (decode_cases (Route.prompt req)) as [(m & p & Hd)|Hnone].
  - destruct (isSupportedImageType m) eqn:Hm.
    + rewrite (POST_valid isSupportedImageType req m p Hle Hd Hm), run_call.
      unfold after_call. cbn [fst].
      destruct (hosted (call_for p m)); discriminate.
    + rewrite (POST_unsupported isSupportedImageType req m p Hle Hd Hm).
      cbn. discriminate.
  - unfold Route.POST.
    destruct (Z.gtb_spec (Js.length (Route.prompt req)) 6464471); [lia|].
    rewrite Hnone. cbn. discriminate.
Qed.

(** * Further properties of the page component *)

Section Upload.

Variable isSupportedImageType : jsstring -> bool.
Variable toBase64 : Page.File -> option jsstring.
Variable createObjectURL : Page.File -> jsstring.

Let submit := Page.submit isSupportedImageType toBase64 createObjectURL.
Let accepted := accepted_upload createObjectURL.

Lemma submit_accepts (file : Page.File) (base64 : jsstring) (st : Page.State) :
  isSupportedImageType file.(Page.type) = true ->
  file.(Page.size) <= Page.max_file_size ->
  toBase64 file = Some base64 ->
  Js.length base64 <= 6464471 ->
  execState (submit (Some file)) st = accepted file base64 st.
Proof.
  intros Htype Hsize Hread Hlen. unfold submit, Page.submit.
  rewrite Htype. cbn [negb].
  destruct (Z.gtb_spec (Page.size file) Page.max_file_size); [lia|].
  rewrite Hread.
  destruct (Z.gtb_spec (Js.length base64) 6464471); [lia|].
  reflexivity.
Qed.

Lemma submit_outcome (file : option Page.File) (st : Page.State) :
  execState (submit file) st = st
  \/ (exists message,
        execState (submit file) st
        = execState (Page.toast_error message) st)
  \/ (exists f base64,
        file = Some f
        /\ isSupportedImageType f.(Page.type) = true
        /\ f.(Page.size) <= Page.max_file_size
        /\ toBase64 f = Some base64
        /\ Js.length base64 <= 6464471
        /\ execState (submit file) st = accepted f base64 st).
Proof.
  destruct file as [f|]; [|left; reflexivity].
  destruct (isSupportedImageType (Page.type f)) eqn:Htype.
  2: { right; left.
       apply (submit_failure toBase64 createObjectURL isSupportedImageType).
       auto. }
  destruct (Z.gtb_spec (Page.size f) Page.max_file_size) as [Hsize|Hsize].
  { right; left.
    apply (submit_failure toBase64 createObjectURL isSupportedImageType).
    right; left. lia. }
  destruct (toBase64 f) as [base64|] eqn:Hread.
  2: { left. unfold submit, Page.submit. rewrite Htype, Hread. cbn [negb].
       destruct (Z.gtb_spec (Page.size f) Page.max_file_size); [lia|].
       reflexivity. }
  destruct (Z.gtb_spec (Js.length base64) 6464471) as [Hlen|Hlen].
  { right; left.
    apply (submit_failure toBase64 createObjectURL isSupportedImageType).
    right; right. exists base64. split; [exact Hread | lia]. }
  right; right. exists f, base64. repeat split; try assumption.
  apply submit_accepts; assumption.
Qed.

End Upload.

(** X5: a file of an accepted type, of at most 4.5 * 1024 * 1024 bytes,
    whose data URL is read and is at most 6,464,471 code units long, is
    submitted: the preview becomes its object URL, the finished flag is
    reset, the data URL is handed to [complete] once, and no toast shows. *)
Theorem submit_accepts_valid_upload
    (isSupportedImageType : jsstring -> bool)
    (toBase64 : Page.File -> option jsstring)
    (createObjectURL : Page.File -> jsstring)
    (file : Page.File) (base64 : jsstring) (st : Page.State) :
  isSupportedImageType file.(Page.type) = true ->
  2 * file.(Page.size) <= 9 * 1024 * 1024 ->
  toBase64 file = Some base64 ->
  Js.length base64 <= 6464471 ->
  execState
    (Page.submit isSupportedImageType toBase64 createObjectURL (Some file)) st
  = {| Page.isDraggingOver := st.(Page.isDraggingOver);
       Page.blobURL := Some (createObjectURL file);
       Page.finished := false;
       Page.toasts := st.(Page.toasts);
       Page.completions := st.(Page.completions) ++ [base64] |}.
Proof.
  intros Htype Hsize Hread Hlen.
  apply (submit_accepts isSupportedImageType toBase64 createObjectURL);
    try assumption.
  unfold Page.max_file_size. lia.
Qed.

(** A PNG of exactly 4.5 * 1024 * 1024 bytes: the bound is inclusive. *)
Lemma submit_accepts_valid_upload_witness :
  execState
    (Page.submit Utils.isSupportedImageType
       (fun _ => Some (Js.lit "data:image/png;base64,iVBORw0KGgo"))
       (fun _ => Js.lit "blob:1")
       (Some {| Page.type := Js.lit "image/png"; Page.size := 4718592 |}))
    {| Page.isDraggingOver := false; Page.blobURL := None;
       Page.finished := true; Page.toasts := []; Page.completions := [] |}
  = {| Page.isDraggingOver := false;
       Page.blobURL := Some (Js.lit "blob:1");
       Page.finished := false;
       Page.toasts := [];
       Page.completions := [Js.lit "data:image/png;base64,iVBORw0KGgo"] |}.
Proof.
  apply (submit_accepts_valid_upload Utils.isSupportedImageType
           (fun _ => Some (Js.lit "data:image/png;base64,iVBORw0KGgo"))
           (fun _ => Js.lit "blob:1")
           {| Page.type := Js.lit "image/png"; Page.size := 4718592 |}
           (Js.lit "data:image/png;base64,iVBORw0KGgo")).
  - reflexivity.
  - cbn [Page.size]. lia.
  - reflexivity.
  - vm_compute. discriminate.
Defined.

(** X6: one call of [submit] does one of three things and nothing else: it
    leaves the state as it is, or it adds one error toast, or it accepts the
    file (see X5).  So it never shows a toast and sends a request in the same
    call, never sends more than one request, never removes an earlier toast
    or request, and never touches the dragging flag. *)
Theorem submit_three_outcomes
    (isSupportedImageType : jsstring -> bool)
    (toBase64 : Page.File -> option jsstring)
    (createObjectURL : Page.File -> jsstring)
    (file : option Page.File) (st : Page.State) :
  let st' :=
    execState
      (Page.submit isSupportedImageType toBase64 createObjectURL file) st in
  st' = st
  \/ (exists message, st' = with_error message st)
  \/ (exists f base64,
        file = Some f /\ toBase64 f = Some base64
        /\ Js.length base64 <= 6464471
        /\ st' = accepted_upload createObjectURL f base64 st).
Proof.
  intros st'. subst st'.
  destruct (submit_outcome isSupportedImageType toBase64 createObjectURL
              file st)
    as [E|[(message & E)|(f & base64 & Hf & _ & _ & Hread & Hlen & E)]].
  - left. exact E.
  - right; left. exists message. rewrite E. reflexivity.
  - right; right. exists f, base64. auto.
Qed.

(** X7: when the file passes the type and size checks but cannot be read
    ([toBase64] does not resolve), [submit] changes nothing: no toast tells
    the user, and no request is made. *)
Theorem submit_unreadable_file_is_silent
    (isSupportedImageType : jsstring -> bool)
    (toBase64 : Page.File -> option jsstring)
    (createObjectURL : Page.File -> jsstring)
    (file : Page.File) (st : Page.State) :
  isSupportedImageType file.(Page.type) = true ->
  2 * file.(Page.size) <= 9 * 1024 * 1024 ->
  toBase64 file = None ->
  execState
    (Page.submit isSupportedImageType toBase64 createObjectURL (Some file)) st
  = st.
Proof.
  intros Htype Hsize Hread. unfold Page.submit.
  rewrite Htype, Hread. cbn [negb].
  destruct (Z.gtb_spec (Page.size file) Page.max_file_size) as [H|_];
    [unfold Page.max_file_size in H; lia | reflexivity].
Qed.

Lemma submit_unreadable_file_is_silent_witness :
  execState
    (Page.submit Utils.isSupportedImageType (fun _ => None)
       (fun _ => Js.lit "blob:1")
       (Some {| Page.type := Js.lit "image/gif"; Page.size := 2048 |}))
    {| Page.isDraggingOver := false; Page.blobURL := None;
       Page.finished := false; Page.toasts := []; Page.completions := [] |}
  = {| Page.isDraggingOver := false; Page.blobURL := None;
       Page.finished := false; Page.toasts := []; Page.completions := [] |}.
Proof.
  apply (submit_unreadable_file_is_silent Utils.isSupportedImageType
           (fun _ => None) (fun _ => Js.lit "blob:1")
           {| Page.type := Js.lit "image/gif"; Page.size := 2048 |}).
  - reflexivity.
  - cbn [Page.size]. lia.
  - reflexivity.
Defined.

Lemma app_one_more_neq {A : Type} (l : list A) (x : A) : l <> l ++ [x].
Proof.
  intros E. apply (f_equal (@List.length A)) in E.
  rewrite List.length_app in E. cbn in E. lia.
Qed.

(** X8: the page and the relay agree on the size limit.  Whatever [submit]
    hands to [complete] is at most 6,464,471 code units long, so the relay
    never answers a request that the page made with "Image too large". *)
Theorem submitted_prompt_within_relay_limit
    (isSupportedImageType : jsstring -> bool)
    (toBase64 : Page.File -> option jsstring)
    (createObjectURL : Page.File -> jsstring)
    (file : option Page.File) (st : Page.State) (prompt : jsstring) :
  (execState
     (Page.submit isSupportedImageType toBase64 createObjectURL file) st)
    .(Page.completions)
  = st.(Page.completions) ++ [prompt] ->
  Js.length prompt <= 6464471
  /\ forall relayHelper hosted,
       fst (Route.run hosted
              (Route.POST relayHelper {| Route.prompt := prompt |}))
       <> Route.Resolved
            {| Route.status := 400;
               Route.body :=
                 Route.Text "Image too large, maximum file size is 4.5MB." |}.
Proof.
  intros E.
  assert (Hlen : Js.length prompt <= 6464471).
  { destruct (submit_outcome isSupportedImageType toBase64
                createObjectURL file st)
      as [E'|[(message & E')|(f & base64 & _ & _ & _ & _ & Hlen & E')]];
      rewrite E' in E; cbn in E.
    - destruct (app_one_more_neq _ _ E).
    - destruct (app_one_more_neq _ _ E).
    - apply app_inv_head in E. injection E as <-. exact Hlen. }
  split; [exact Hlen|]. intros relayHelper hosted.
  apply (POST_within_limit relayHelper hosted {| Route.prompt := prompt |}).
  exact Hlen.
Qed.

Lemma submitted_prompt_within_relay_limit_witness :
  Js.length (Js.lit "data:image/png;base64,iVBORw0KGgo") <= 6464471
  /\ forall relayHelper hosted,
       fst (Route.run hosted
              (Route.POST relayHelper
                 {| Route.prompt :=
                      Js.lit "data:image/png;base64,iVBORw0KGgo" |}))
       <> Route.Resolved
            {| Route.status := 400;
               Route.body :=
                 Route.Text "Image too large, maximum file size is 4.5MB." |}.
Proof.
  apply (submitted_prompt_within_relay_limit Utils.isSupportedImageType
           (fun _ => Some (Js.lit "data:image/png;base64,iVBORw0KGgo"))
           (fun _ => Js.lit "blob:1")
           (Some {| Page.type := Js.lit "image/png"; Page.size := 11 |})
           {| Page.isDraggingOver := false; Page.blobURL := None;
              Page.finished := false; Page.toasts := [];
              Page.completions := [] |}).
  reflexivity.
Defined.

(** X9: page and relay end to end.  When the browser reads an accepted file
    as the data URL of its own type (a non-empty type over the class, a
    non-empty payload on one line) and the page and the relay use the same
    helper, [submit] sends that data URL and the relay makes exactly one
    call of the model, which carries this payload and this type; the relay
    answers with [new StreamingTextResponse(result.toAIStream())] when that
    call resolves and rejects when it rejects. *)
Theorem accepted_upload_reaches_model
    (isSupportedImageType : jsstring -> bool)
    (toBase64 : Page.File -> option jsstring)
    (createObjectURL : Page.File -> jsstring)
    (hosted : Route.StreamTextArgs -> option Route.StreamTextResult)
    (file : Page.File) (payload : jsstring) (st : Page.State) :
  isSupportedImageType file.(Page.type) = true ->
  2 * file.(Page.size) <= 9 * 1024 * 1024 ->
  file.(Page.type) <> [] ->
  forallb Regex.mime_class file.(Page.type) = true ->
  payload <> [] ->
  forallb Regex.dot payload = true ->
  toBase64 file = Some (data_uri_string file.(Page.type) payload) ->
  Js.length (data_uri_string file.(Page.type) payload) <= 6464471 ->
  (execState
     (Page.submit isSupportedImageType toBase64 createObjectURL (Some file))
     st).(Page.completions)
  = st.(Page.completions) ++ [data_uri_string file.(Page.type) payload]
  /\ Route.run hosted
       (Route.POST isSupportedImageType
          {| Route.prompt := data_uri_string file.(Page.type) payload |})
     = (match hosted (call_for payload file.(Page.type)) with
        | Some result =>
            Route.Resolved
              (Route.StreamingTextResponse result.(Route.toAIStream))
        | None => Route.Rejected
        end,
        [call_for payload file.(Page.type)]).
Proof.
  intros Htype Hsize Ht0 Htc Hp0 Hpd Hread Hlen. split.
  - assert (Hmax : Page.size file <= Page.max_file_size)
      by (unfold Page.max_file_size; lia).
    rewrite (submit_accepts isSupportedImageType toBase64 createObjectURL
               file _ st Htype Hmax Hread Hlen).
    reflexivity.
  - rewrite (POST_valid isSupportedImageType
               {| Route.prompt := data_uri_string (Page.type file) payload |}
               (Page.type file) payload Hlen).
    + apply run_call.
    + unfold DataURI, data_uri_string. cbn [Route.prompt]. auto.
    + exact Htype.
Qed.

Lemma accepted_upload_reaches_model_witness :
  (execState
     (Page.submit Utils.isSupportedImageType
        (fun f => Some (data_uri_string f.(Page.type) (Js.lit "UklGRg==")))
        (fun _ => Js.lit "blob:1")
        (Some {| Page.type := Js.lit "image/webp"; Page.size := 4 |}))
     {| Page.isDraggingOver := false; Page.blobURL := None;
        Page.finished := false; Page.toasts := [];
        Page.completions := [] |}).(Page.completions)
  = [Js.lit "data:image/webp;base64,UklGRg=="]
  /\ Route.run (fun _ => Some {| Route.toAIStream := [Js.lit "ok"] |})
       (Route.POST Utils.isSupportedImageType
          {| Route.prompt := Js.lit "data:image/webp;base64,UklGRg==" |})
     = (Route.Resolved (Route.StreamingTextResponse [Js.lit "ok"]),
        [call_for (Js.lit "UklGRg==") (Js.lit "image/webp")]).
Proof.
  refine (accepted_upload_reaches_model Utils.isSupportedImageType
            (fun f => Some (data_uri_string f.(Page.type) (Js.lit "UklGRg==")))
            (fun _ => Js.lit "blob:1")
            (fun _ => Some {| Route.toAIStream := [Js.lit "ok"] |})
            {| Page.type := Js.lit "image/webp"; Page.size := 4 |}
            (Js.lit "UklGRg==")
            {| Page.isDraggingOver := false; Page.blobURL := None;
               Page.finished := false; Page.toasts := [];
               Page.completions := [] |}
            _ _ _ _ _ _ _ _);
    first [ reflexivity | discriminate | cbn [Page.size]; lia
          | vm_compute; discriminate ].
Defined.

(** X10: the page does not look at the form of the data URL.  When the data
    URL of an accepted file is within the size limit but not of the form the
    relay's pattern reads (an empty payload, say), [submit] sends it without
    a toast, and the relay answers "Invalid image data" without calling the
    model. *)
Theorem unparsable_data_url_sent_then_rejected
    (isSupportedImageType : jsstring -> bool)
    (toBase64 : Page.File -> option jsstring)
    (createObjectURL : Page.File -> jsstring)
    (relayHelper : jsstring -> bool)
    (hosted : Route.StreamTextArgs -> option Route.StreamTextResult)
    (file : Page.File) (base64 : jsstring) (st : Page.State) :
  isSupportedImageType file.(Page.type) = true ->
  2 * file.(Page.size) <= 9 * 1024 * 1024 ->
  toBase64 file = Some base64 ->
  Js.length base64 <= 6464471 ->
  (forall m p, ~ DataURI base64 m p) ->
  let st' :=
    execState
      (Page.submit isSupportedImageType toBase64 createObjectURL (Some file))
      st in
  st'.(Page.completions) = st.(Page.completions) ++ [base64]
  /\ st'.(Page.toasts) = st.(Page.toasts)
  /\ Route.run hosted (Route.POST relayHelper {| Route.prompt := base64 |})
     = (Route.Resolved {| Route.status := 400;
           Route.body := Route.Text "Invalid image data" |}, []).
Proof.
  intros Htype Hsize Hread Hlen Hno st'. subst st'.
  assert (Hmax : Page.size file <= Page.max_file_size)
    by (unfold Page.max_file_size; lia).
  rewrite (submit_accepts isSupportedImageType toBase64 createObjectURL
             file base64 st Htype Hmax Hread Hlen).
  cbn [Page.completions Page.toasts accepted_upload]. repeat split.
  rewrite (POST_invalid relayHelper {| Route.prompt := base64 |} Hlen Hno).
  reflexivity.
Qed.

(** An empty PNG file: its data URL has no payload. *)
Lemma unparsable_data_url_sent_then_rejected_witness :
  let st' :=
    execState
      (Page.submit Utils.isSupportedImageType
         (fun _ => Some (Js.lit "data:image/png;base64,"))
         (fun _ => Js.lit "blob:1")
         (Some {| Page.type := Js.lit "image/png"; Page.size := 0 |}))
      {| Page.isDraggingOver := false; Page.blobURL := None;
         Page.finished := false; Page.toasts := [];
         Page.completions := [] |} in
  st'.(Page.completions) = [] ++ [Js.lit "data:image/png;base64,"]
  /\ st'.(Page.toasts) = []
  /\ Route.run (fun _ => Some {| Route.toAIStream := [] |})
       (Route.POST Utils.isSupportedImageType
          {| Route.prompt := Js.lit "data:image/png;base64," |})
     = (Route.Resolved {| Route.status := 400;
           Route.body := Route.Text "Invalid image data" |}, []).
Proof.
  refine (unparsable_data_url_sent_then_rejected Utils.isSupportedImageType
            (fun _ => Some (Js.lit "data:image/png;base64,"))
            (fun _ => Js.lit "blob:1")
            Utils.isSupportedImageType
            (fun _ => Some {| Route.toAIStream := [] |})
            {| Page.type := Js.lit "image/png"; Page.size := 0 |}
            (Js.lit "data:image/png;base64,")
            {| Page.isDraggingOver := false; Page.blobURL := None;
               Page.finished := false; Page.toasts := [];
               Page.completions := [] |}
            _ _ _ _ _).
  - reflexivity.
  - cbn [Page.size]. lia.
  - reflexivity.
  - vm_compute. discriminate.
  - apply exec_None_not_DataURI. reflexivity.
Defined.

Lemma find_all_false {A : Type} (f : A -> bool) (l : list A) :
  (forall x, In x l -> f x = false) -> find f l = None.
Proof.
  induction l as [|x l IH]; intros H; [reflexivity|].
  cbn. rewrite (H x (or_introl eq_refl)). apply IH.
  intros y Hy. apply H. right. exact Hy.
Qed.

Lemma toast_error_with_error (message : string) (st : Page.State) :
  execState (Page.toast_error message) st = with_error message st.
Proof. reflexivity. Qed.

(** X11: a drop always ends the dragging highlight, and of the files dropped
    only the first is submitted: at most one request is made, within the
    size limit, however many files the drop carries. *)
Theorem drop_ends_dragging
    (isSupportedImageType : jsstring -> bool)
    (toBase64 : Page.File -> option jsstring)
    (createObjectURL : Page.File -> jsstring)
    (e : Page.DragEvent) (st : Page.State) :
  let st' :=
    execState
      (Page.handleDrop isSupportedImageType toBase64 createObjectURL e) st in
  st'.(Page.isDraggingOver) = false
  /\ (st'.(Page.completions) = st.(Page.completions)
      \/ exists f rest base64,
           e.(Page.dataTransfer) = Some {| Page.files := f :: rest |}
           /\ toBase64 f = Some base64
           /\ Js.length base64 <= 6464471
           /\ st'.(Page.completions) = st.(Page.completions) ++ [base64]).
Proof.
  intros st'. subst st'.
  set (st1 := execState (Page.setIsDraggingOver false) st).
  set (file := Page.first_file (option_map Page.files (Page.dataTransfer e))).
  change (execState
            (Page.handleDrop isSupportedImageType toBase64 createObjectURL e)
            st)
    with (execState
            (Page.submit isSupportedImageType toBase64 createObjectURL file)
            st1).
  destruct (submit_outcome isSupportedImageType toBase64 createObjectURL
              file st1)
    as [E|[(message & E)|(f & base64 & Hf & _ & _ & Hread & Hlen & E)]];
    rewrite E.
  - split; [reflexivity | left; reflexivity].
  - split; [reflexivity | left; reflexivity].
  - split; [reflexivity|]. right.
    subst file. destruct e as [[[[|f' rest]]|]]; cbn in Hf; try discriminate.
    injection Hf as ->. exists f, rest, base64. auto.
Qed.

Section LongPress.

Variable isSupportedImageType : jsstring -> bool.
Variable toBase64 : Page.File -> option jsstring.
Variable createObjectURL : Page.File -> jsstring.

(** X12: a long press makes a request only out of the first clipboard item,
    for a type of that item which the helper accepts.  In every other case
    it makes none: it shows one error toast or (an unreadable blob) nothing.
    When the first item offers no accepted type the toast is the
    unsupported-format one, whatever the other items hold. *)
Theorem long_press_outcomes (clipboard : Page.ClipboardRead) (st : Page.State) :
  let st' :=
    execState
      (Page.onLongPress isSupportedImageType toBase64 createObjectURL
         clipboard) st in
  (st' = st
   \/ (exists message, st' = with_error message st)
   \/ (exists item rest type blob base64,
         clipboard = Page.read_items (item :: rest)
         /\ In type item.(Page.types)
         /\ isSupportedImageType type = true
         /\ item.(Page.getType) type = Some blob
         /\ toBase64 blob = Some base64
         /\ Js.length base64 <= 6464471
         /\ st' = accepted_upload createObjectURL blob base64 st))
  /\ (forall item rest,
        clipboard = Page.read_items (item :: rest) ->
        (forall type, In type item.(Page.types) ->
                      isSupportedImageType type = false) ->
        st' = with_error
                "Unsupported format. Only JPEG, PNG, GIF, and WEBP files are supported."
                st).
Proof.
  intros st'. subst st'. split.
  - destruct clipboard as [| |[|item rest]]; cbn [Page.onLongPress nth_error];
      try (right; left; eexists; apply toast_error_with_error).
    destruct (find isSupportedImageType (Page.types item)) as [type|] eqn:Hfind;
      [|right; left; eexists; apply toast_error_with_error].
    apply find_some in Hfind as [Hin Htype].
    destruct type as [|c type]; cbn [Js.narrow];
      [right; left; eexists; apply toast_error_with_error|].
    destruct (Page.getType item (c :: type)) as [blob|] eqn:Hblob;
      [|right; left; eexists; apply toast_error_with_error].
    destruct (submit_outcome isSupportedImageType toBase64 createObjectURL
                (Some blob) st)
      as [E|[(message & E)|(f & base64 & Hf & _ & _ & Hread & Hlen & E)]].
    + left. exact E.
    + right; left. exists message. rewrite E. reflexivity.
    + right; right. injection Hf as <-.
      exists item, rest, (c :: type), blob, base64. auto 10.
  - intros item rest -> Hnone. cbn [Page.onLongPress nth_error].
    rewrite (find_all_false _ _ Hnone). reflexivity.
Qed.

End LongPress.

(** A clipboard whose first item is plain text and whose second is a PNG. *)
Lemma long_press_outcomes_witness :
  execState
    (Page.onLongPress Utils.isSupportedImageType
       (fun _ => Some (Js.lit "data:image/png;base64,iVBORw0KGgo"))
       (fun _ => Js.lit "blob:1")
       (Page.read_items
          [ {| Page.types := [Js.lit "text/plain"];
               Page.getType := fun _ => None |};
            {| Page.types := [Js.lit "image/png"];
               Page.getType := fun t =>
                 Some {| Page.type := t; Page.size := 11 |} |} ]))
    {| Page.isDraggingOver := false; Page.blobURL := None;
       Page.finished := false; Page.toasts := []; Page.completions := [] |}
  = with_error
      "Unsupported format. Only JPEG, PNG, GIF, and WEBP files are supported."
      {| Page.isDraggingOver := false; Page.blobURL := None;
         Page.finished := false; Page.toasts := []; Page.completions := [] |}.
Proof.
  eapply (long_press_outcomes Utils.isSupportedImageType).
  - reflexivity.
  - intros type [<-|[]]. reflexivity.
Defined.

(** ** The two sections of the completion *)

Lemma split_length (sep : code_unit) (s : jsstring) :
  List.length (Js.split sep s) = S (count_occ N.eq_dec s sep).
Proof.
  induction s as [|c s IH]; [reflexivity|]. cbn [Js.split count_occ].
  destruct (N.eqb_spec c sep) as [->|Hc].
  - destruct (N.eq_dec sep sep); [|congruence]. cbn. rewrite IH. reflexivity.
  - destruct (N.eq_dec c sep); [congruence|].
    destruct (Js.split sep s); [discriminate IH | exact IH].
Qed.

(** Splitting a text that goes on: the last piece so far and the first piece
    of what comes are one piece. *)
Lemma split_app (sep : code_unit) (a b : jsstring) :
  exists before last first rest,
    Js.split sep a = before ++ [last]
    /\ Js.split sep b = first :: rest
    /\ Js.split sep (a ++ b) = before ++ (last ++ first) :: rest.
Proof.
  induction a as [|c a (before & last & first & rest & Ea & Eb & Eab)].
  - destruct (split_shape sep b) as (first & rest & Eb & _).
    exists [], [], first, rest. cbn. auto.
  - cbn [Js.split app]. destruct (N.eqb_spec c sep) as [->|Hc].
    + exists ([] :: before), last, first, rest. rewrite Ea, Eab. auto.
    + rewrite Ea, Eab. destruct before as [|x before]; cbn.
      * exists [], (c :: last), first, rest. auto.
      * exists ((c :: x) :: before), last, first, rest. auto.
Qed.

Lemma split_no_sentinel (s : jsstring) :
  sentinels s = 0%nat -> Js.split Page.sentinel s = [s].
Proof.
  intros H.
  destruct (split_shape Page.sentinel s)
    as (seg & segs & E & _ & [[-> ->]|(s' & -> & _)]); [exact E|].
  rewrite sentinels_cut in H. lia.
Qed.

(** X13: the display while the completion streams in.  Until a sentinel has
    come the whole text is the description; once one has come the description
    stays as it is whatever follows, and the text grows by what follows as
    long as that holds no sentinel; after a second sentinel both sections
    stay as they are. *)
Theorem description_text_while_streaming (completion more : jsstring) :
  (sentinels completion = 0%nat -> sentinels more = 0%nat ->
   Page.description_text (completion ++ more)
   = (Some (completion ++ more), None))
  /\ ((sentinels completion >= 1)%nat ->
      fst (Page.description_text (completion ++ more))
      = fst (Page.description_text completion))
  /\ (sentinels completion = 1%nat -> sentinels more = 0%nat ->
      snd (Page.description_text (completion ++ more))
      = option_map (fun text => text ++ more)
          (snd (Page.description_text completion)))
  /\ ((sentinels completion >= 2)%nat ->
      Page.description_text (completion ++ more)
      = Page.description_text completion).
Proof.
  unfold Page.description_text.
  destruct (split_app Page.sentinel completion more)
    as (before & last & first & rest & Ea & Eb & Eab).
  pose proof (split_length Page.sentinel completion) as Hlen.
  fold (sentinels completion) in Hlen.
  rewrite Ea, List.length_app in Hlen. cbn in Hlen.
  rewrite Ea, Eab. repeat split.
  - intros H0 Hm. apply split_no_sentinel in Hm. rewrite Hm in Eb.
    injection Eb as <- <-.
    destruct before; [|cbn in Hlen; lia].
    apply split_no_sentinel in H0. rewrite H0 in Ea.
    cbn in Ea. injection Ea as <-. reflexivity.
  - intros H. destruct before; [cbn in Hlen; lia | reflexivity].
  - intros H1 Hm. apply split_no_sentinel in Hm. rewrite Hm in Eb.
    injection Eb as <- <-.
    destruct before as [|d [|? ?]]; cbn in Hlen; try lia. reflexivity.
  - intros H. destruct before as [|d [|? ?]]; cbn in Hlen; try lia.
    reflexivity.
Qed.

(** "x=2 ▲ 5" followed by "/5", and "a▲b▲" followed by "c". *)
Lemma description_text_while_streaming_witness :
  snd (Page.description_text ([120; 61; 50; 9650; 53]%N ++ [47; 53]%N))
  = option_map (fun text => text ++ [47; 53]%N)
      (snd (Page.description_text [120; 61; 50; 9650; 53]%N))
  /\ Page.description_text ([97; 9650; 98; 9650]%N ++ [99]%N)
     = Page.description_text [97; 9650; 98; 9650]%N.
Proof.
  split.
  - apply (description_text_while_streaming
             [120; 61; 50; 9650; 53]%N [47; 53]%N); reflexivity.
  - apply (description_text_while_streaming [97; 9650; 98; 9650]%N [99]%N).
    vm_compute. lia.
Defined.

Lemma map_no_sentinel (s : jsstring) :
  ~ In Page.sentinel s -> sentinel_to_newline s = s.
Proof.
  unfold sentinel_to_newline.
  induction s as [|c s IH]; intros H; [reflexivity|]. cbn [map].
  destruct (N.eqb_spec c Page.sentinel) as [->|_].
  - destruct H. left. reflexivity.
  - rewrite IH; [reflexivity|]. intros Hin. apply H. right. exact Hin.
Qed.

(** X14: [copyBoth] hands to the clipboard the description, a newline and
    the text (nothing for a text that is not there) and shows the toast
    "Copied to clipboard"; it makes no request and changes no flag.  For a
    completion with exactly one sentinel that is the whole completion with
    the sentinel replaced by a newline. *)
Theorem copyBoth_writes (completion : jsstring) (b : Page.Browser) :
  let b' := execState (Page.copyBoth completion) b in
  (exists description,
     fst (Page.description_text completion) = Some description
     /\ b'.(Page.written)
        = b.(Page.written)
          ++ [description ++ [10%N]
              ++ match snd (Page.description_text completion) with
                 | Some text => text
                 | None => []
                 end])
  /\ b'.(Page.page)
     = {| Page.isDraggingOver := b.(Page.page).(Page.isDraggingOver);
          Page.blobURL := b.(Page.page).(Page.blobURL);
          Page.finished := b.(Page.page).(Page.finished);
          Page.toasts :=
            b.(Page.page).(Page.toasts)
            ++ [Page.toast_success_shown "Copied to clipboard"];
          Page.completions := b.(Page.page).(Page.completions) |}
  /\ (sentinels completion = 1%nat ->
      b'.(Page.written)
      = b.(Page.written)
        ++ [sentinel_to_newline completion]).
Proof.
  intros b'. subst b'. unfold Page.copyBoth, Page.description_text.
  destruct (split_shape Page.sentinel completion)
    as (d & segs & E & Hd & Hrest).
  rewrite E. cbn [nth_error]. split; [|split].
  - exists d. split; [reflexivity|]. destruct segs as [|t segs]; reflexivity.
  - reflexivity.
  - intros H1. destruct Hrest as [[-> ->]|(s' & -> & ->)].
    + rewrite (sentinels_none _ Hd) in H1. discriminate H1.
    + rewrite sentinels_cut, (sentinels_none _ Hd) in H1.
      assert (H0 : sentinels s' = 0%nat) by (cbn in H1; lia).
      rewrite (split_no_sentinel _ H0). cbn [nth_error].
      assert (Hs' : ~ In Page.sentinel s').
      { apply (count_occ_not_In N.eq_dec). exact H0. }
      replace (sentinel_to_newline (d ++ Page.sentinel :: s'))
        with (sentinel_to_newline d ++ 10%N :: sentinel_to_newline s')
        by (unfold sentinel_to_newline; rewrite map_app; cbn [map];
            rewrite N.eqb_refl; reflexivity).
      rewrite (map_no_sentinel _ Hd), (map_no_sentinel _ Hs'). reflexivity.
Qed.

(** "x=2▲5/5" is copied as "x=2", newline, "5/5". *)
Lemma copyBoth_writes_witness :
  (execState (Page.copyBoth [120; 61; 50; 9650; 53; 47; 53]%N)
     {| Page.page :=
          {| Page.isDraggingOver := false; Page.blobURL := None;
             Page.finished := true; Page.toasts := [];
             Page.completions := [] |};
        Page.written := [] |}).(Page.written)
  = [] ++ [sentinel_to_newline [120; 61; 50; 9650; 53; 47; 53]%N].
Proof.
  apply (copyBoth_writes [120; 61; 50; 9650; 53; 47; 53]%N
           {| Page.page :=
                {| Page.isDraggingOver := false; Page.blobURL := None;
                   Page.finished := true; Page.toasts := [];
                   Page.completions := [] |};
              Page.written := [] |}).
  reflexivity.
Defined.

(** ** The [Section] component *)

(** X15: what a section shows is decided by its content and the finished
    flag.  It shows the paragraph (the trimmed content) and the copy button
    exactly when the content is there and not empty; otherwise it shows the
    pulsing placeholder exactly while not finished and the notice "No text
    was found in that image." exactly once finished.  So exactly one of
    placeholder, paragraph and notice shows, and the copy button shows with
    the paragraph only. *)
Theorem Section_shows_one_thing
    (children : string) (content : option jsstring) (finished : bool) :
  let view := Page.Section_ children content finished in
  view.(Page.heading) = children
  /\ (forall c text,
        content = Some (c :: text) ->
        view.(Page.paragraph) = Some (Js.trim (c :: text))
        /\ view.(Page.copy_button) = true
        /\ view.(Page.placeholder) = false
        /\ view.(Page.no_text_notice) = false)
  /\ (content = None \/ content = Some [] ->
      view.(Page.paragraph) = None
      /\ view.(Page.copy_button) = false
      /\ view.(Page.placeholder) = negb finished
      /\ view.(Page.no_text_notice) = finished)
  /\ ((view.(Page.placeholder) = true /\ view.(Page.paragraph) = None
       /\ view.(Page.no_text_notice) = false)
      \/ (view.(Page.placeholder) = false /\ view.(Page.paragraph) <> None
          /\ view.(Page.no_text_notice) = false)
      \/ (view.(Page.placeholder) = false /\ view.(Page.paragraph) = None
          /\ view.(Page.no_text_notice) = true))
  /\ (view.(Page.copy_button) = true <-> view.(Page.paragraph) <> None).
Proof.
  intros view. subst view. split; [reflexivity|]. split; [|split; [|split]].
  - intros c text ->. destruct finished; cbn; auto.
  - intros [->| ->]; destruct finished; cbn; auto.
  - destruct content as [[|c text]|]; destruct finished; cbn;
      first [ left; repeat split; reflexivity
            | right; right; repeat split; reflexivity
            | right; left; repeat split; discriminate ].
  - destruct content as [[|c text]|]; cbn;
      (split; [first [discriminate | congruence]
              | first [reflexivity | congruence]]).
Qed.

(** A finished section with the content "5/5", and one without content. *)
Lemma Section_shows_one_thing_witness :
  ((Page.Section_ "Text" (Some [53; 47; 53]%N) true).(Page.paragraph)
   = Some (Js.trim [53; 47; 53]%N)
   /\ (Page.Section_ "Text" (Some [53; 47; 53]%N) true).(Page.copy_button)
      = true
   /\ (Page.Section_ "Text" (Some [53; 47; 53]%N) true).(Page.placeholder)
      = false
   /\ (Page.Section_ "Text" (Some [53; 47; 53]%N) true).(Page.no_text_notice)
      = false)
  /\ ((Page.Section_ "Text" None true).(Page.paragraph) = None
      /\ (Page.Section_ "Text" None true).(Page.copy_button) = false
      /\ (Page.Section_ "Text" None true).(Page.placeholder) = negb true
      /\ (Page.Section_ "Text" None true).(Page.no_text_notice) = true).
Proof.
  split.
  - apply (proj1 (proj2 (Section_shows_one_thing "Text"
                           (Some [53; 47; 53]%N) true)) 53%N [47; 53]%N).
    reflexivity.
  - apply (proj1 (proj2 (proj2 (Section_shows_one_thing "Text" None true)))).
    left. reflexivity.
Defined.

Lemma trimStart_spec (s : jsstring) :
  exists before,
    s = before ++ Js.trimStart s
    /\ forallb Js.is_white_space before = true
    /\ match Js.trimStart s with
       | [] => True
       | c :: _ => Js.is_white_space c = false
       end.
Proof.
  induction s as [|c s (before & E & Hws & Hhead)]; cbn [Js.trimStart].
  - exists []. auto.
  - destruct (Js.is_white_space c) eqn:Hc.
    + exists (c :: before). cbn. rewrite Hc, Hws, <- E. auto.
    + exists []. cbn. auto.
Qed.

Lemma forallb_rev (f : code_unit -> bool) (l : jsstring) :
  forallb f l = true -> forallb f (rev l) = true.
Proof.
  rewrite !forallb_forall. intros H x Hx. apply H, in_rev. exact Hx.
Qed.

Lemma trimEnd_spec (s : jsstring) :
  exists after,
    s = Js.trimEnd s ++ after
    /\ forallb Js.is_white_space after = true
    /\ match rev (Js.trimEnd s) with
       | [] => True
       | c :: _ => Js.is_white_space c = false
       end.
Proof.
  unfold Js.trimEnd.
  destruct (trimStart_spec (rev s)) as (before & E & Hws & Hhead).
  exists (rev before). rewrite rev_involutive. repeat split.
  - rewrite <- rev_app_distr, <- E, rev_involutive. reflexivity.
  - apply forallb_rev. exact Hws.
  - exact Hhead.
Qed.

(** [trim] takes white space off both ends and nothing else. *)
Lemma trim_spec (s : jsstring) :
  exists before after,
    s = before ++ Js.trim s ++ after
    /\ forallb Js.is_white_space before = true
    /\ forallb Js.is_white_space after = true
    /\ (forall c rest, Js.trim s = c :: rest -> Js.is_white_space c = false)
    /\ (forall rest c, Js.trim s = rest ++ [c] -> Js.is_white_space c = false).
Proof.
  unfold Js.trim.
  destruct (trimStart_spec s) as (before & E & Hws & Hhead).
  destruct (trimEnd_spec (Js.trimStart s)) as (after & E' & Hws' & Hlast).
  exists before, after. repeat split; try assumption.
  - rewrite <- E'. exact E.
  - intros c rest Ht. rewrite Ht in E'. rewrite E' in Hhead. exact Hhead.
  - intros rest c Ht. rewrite Ht, rev_app_distr in Hlast. exact Hlast.
Qed.

Lemma trim_white_space (s : jsstring) :
  forallb Js.is_white_space s = true -> Js.trim s = [].
Proof.
  intros H. unfold Js.trim.
  assert (E : Js.trimStart s = []).
  { induction s as [|c s IH]; [reflexivity|]. cbn in H |- *.
    apply andb_true_iff in H as [-> H]. apply IH. exact H. }
  rewrite E. reflexivity.
Qed.

(** X16: the paragraph of a section is its content without the white space
    at its two ends, the rest untouched.  A content that is only white space
    therefore gives an empty paragraph, and still neither the placeholder
    nor the notice "No text was found in that image.". *)
Theorem Section_paragraph_trimmed
    (children : string) (content : jsstring) (finished : bool) :
  content <> [] ->
  let view := Page.Section_ children (Some content) finished in
  (exists text before after,
     view.(Page.paragraph) = Some text
     /\ content = before ++ text ++ after
     /\ forallb Js.is_white_space before = true
     /\ forallb Js.is_white_space after = true
     /\ (forall c rest, text = c :: rest -> Js.is_white_space c = false)
     /\ (forall rest c, text = rest ++ [c] -> Js.is_white_space c = false)
     /\ (forallb Js.is_white_space content = true -> text = []))
  /\ view.(Page.placeholder) = false
  /\ view.(Page.no_text_notice) = false.
Proof.
  intros Hne view. subst view.
  destruct content as [|c content]; [congruence|].
  destruct (trim_spec (c :: content))
    as (before & after & E & Hb & Ha & Hhead & Hlast).
  split.
  - exists (Js.trim (c :: content)), before, after.
    repeat split; try assumption. apply trim_white_space.
  - destruct finished; split; reflexivity.
Qed.

(** A section whose content is two blanks and a newline. *)
Lemma Section_paragraph_trimmed_witness :
  (Page.Section_ "Text" (Some [32; 32; 10]%N) true).(Page.placeholder) = false
  /\ (Page.Section_ "Text" (Some [32; 32; 10]%N) true).(Page.no_text_notice)
     = false.
Proof.
  apply (Section_paragraph_trimmed "Text" [32; 32; 10]%N true).
  discriminate.
Defined.

Example Section_paragraph_example :
  (Page.Section_ "Text" (Some [32; 32; 120; 32; 61; 32; 50; 32; 10]%N) true)
    .(Page.paragraph) = Some [120; 32; 61; 32; 50]%N.
Proof. reflexivity. Qed.

(** ** The results column *)

(** X17: the results column is there exactly when the completion is loading
    or not empty.  When the completion holds no sentinel, all of it is the
    description, the Text section has no paragraph (its placeholder shows
    until the completion has finished, then the notice "No text was found in
    that image.") and the button "Copy Both" is never offered. *)
Theorem results_without_sentinel
    (isLoading : bool) (completion : jsstring) (finished : bool) :
  (Page.results isLoading completion finished = None
   <-> isLoading = false /\ completion = [])
  /\ (sentinels completion = 0%nat ->
      forall r,
        Page.results isLoading completion finished = Some r ->
        r.(Page.description_section)
        = Page.Section_ "Description" (Some completion) finished
        /\ r.(Page.text_section).(Page.paragraph) = None
        /\ r.(Page.text_section).(Page.placeholder) = negb finished
        /\ r.(Page.text_section).(Page.no_text_notice) = finished
        /\ r.(Page.copy_both_button) = false).
Proof.
  unfold Page.results, Page.description_text. split.
  - destruct (split_shape Page.sentinel completion) as (d & segs & -> & _).
    cbn [nth_error]. destruct isLoading; cbn [orb].
    + split; [discriminate | intros [H _]; discriminate H].
    + destruct completion as [|c completion]; cbn.
      * split; auto.
      * split; [discriminate | intros [_ H]; discriminate H].
  - intros H0 r. rewrite (split_no_sentinel _ H0). cbn [nth_error].
    destruct (isLoading || Js.truthy (Some completion)); [|discriminate].
    intros E. injection E as <-. cbn.
    destruct finished; repeat split; reflexivity.
Qed.

(** A finished completion "x=2" without a sentinel. *)
Lemma results_without_sentinel_witness :
  exists r,
    Page.results false [120; 61; 50]%N true = Some r
    /\ r.(Page.text_section).(Page.no_text_notice) = true
    /\ r.(Page.copy_both_button) = false.
Proof.
  eexists. split; [reflexivity|].
  destruct (proj2 (results_without_sentinel false [120; 61; 50]%N true)
              eq_refl _ eq_refl) as (_ & _ & _ & Hnotice & Hbutton).
  split; [exact Hnotice | exact Hbutton].
Defined.

(** X18: between an accepted upload and the end of its completion the
    finished flag is down, so whatever has streamed in so far, the results
    column shows neither the notice "No text was found in that image." nor
    the button "Copy Both".  [onFinish] raises the flag and keeps the
    preview; [onError] takes the preview away with one toast, keeps the
    requests made, and leaves the flag down. *)
Theorem upload_in_flight
    (isSupportedImageType : jsstring -> bool)
    (toBase64 : Page.File -> option jsstring)
    (createObjectURL : Page.File -> jsstring)
    (file : option Page.File) (st : Page.State) (base64 : jsstring) :
  let st' :=
    execState
      (Page.submit isSupportedImageType toBase64 createObjectURL file) st in
  st'.(Page.completions) = st.(Page.completions) ++ [base64] ->
  (forall isLoading completion r,
     Page.results isLoading completion st'.(Page.finished) = Some r ->
     r.(Page.copy_both_button) = false
     /\ r.(Page.description_section).(Page.no_text_notice) = false
     /\ r.(Page.text_section).(Page.no_text_notice) = false)
  /\ (exists f,
        file = Some f
        /\ st'.(Page.blobURL) = Some (createObjectURL f)
        /\ (execState Page.onFinish st').(Page.finished) = true
        /\ (execState Page.onFinish st').(Page.blobURL)
           = Some (createObjectURL f))
  /\ (forall message,
        execState (Page.onError message) st'
        = {| Page.isDraggingOver := st.(Page.isDraggingOver);
             Page.blobURL := None;
             Page.finished := false;
             Page.toasts :=
               st.(Page.toasts) ++ [Page.toast_error_shown message];
             Page.completions := st.(Page.completions) ++ [base64] |}).
Proof.
  intros st' E. subst st'.
  destruct (submit_outcome isSupportedImageType toBase64 createObjectURL
              file st)
    as [E'|[(message & E')|(f & b & Hf & _ & _ & _ & _ & E')]];
    rewrite E' in E |- *; cbn in E.
  - destruct (app_one_more_neq _ _ E).
  - destruct (app_one_more_neq _ _ E).
  - apply app_inv_head in E. injection E as <-. split; [|split].
    + intros isLoading completion r. cbn [accepted_upload Page.finished].
      unfold Page.results.
      destruct (Page.description_text completion) as [d t].
      destruct (isLoading || Js.truthy (Some completion)); [|discriminate].
      intros Er. injection Er as <-. cbn. auto.
    + exists f. cbn. auto.
    + intros message. reflexivity.
Qed.

Lemma upload_in_flight_witness :
    execState (Page.onError "Failed to fetch")
      (execState
         (Page.submit Utils.isSupportedImageType
            (fun _ => Some (Js.lit "data:image/png;base64,iVBORw0KGgo"))
            (fun _ => Js.lit "blob:1")
            (Some {| Page.type := Js.lit "image/png"; Page.size := 11 |}))
         {| Page.isDraggingOver := false; Page.blobURL := None;
            Page.finished := true; Page.toasts := [];
            Page.completions := [] |})
    = {| Page.isDraggingOver := false;
         Page.blobURL := None;
         Page.finished := false;
         Page.toasts := [] ++ [Page.toast_error_shown "Failed to fetch"];
         Page.completions :=
           [] ++ [Js.lit "data:image/png;base64,iVBORw0KGgo"] |}.
Proof.
  refine (proj2 (proj2 (upload_in_flight Utils.isSupportedImageType
           (fun _ => Some (Js.lit "data:image/png;base64,iVBORw0KGgo"))
           (fun _ => Js.lit "blob:1")
           (Some {| Page.type := Js.lit "image/png"; Page.size := 11 |})
           {| Page.isDraggingOver := false; Page.blobURL := None;
              Page.finished := true; Page.toasts := [];
              Page.completions := [] |}
           (Js.lit "data:image/png;base64,iVBORw0KGgo") _)) _).
  reflexivity.
Defined.
